(** * kitforge: complexity scoring and pricing engine

  A shallow embedding of [backend/api/compute_pipeline.py]
  ([ModelAnalyzer.compute_complexity_score]) and of
  [backend/api/pricing_engine.py] ([PricingEngine]), with the properties
  the specification states about them.

  Numeric model.  Python [int] is [Z] (lengths are [N]).  Python [float]
  is modelled by exact rationals [Q]: every arithmetic operation is the
  exact one, so the binary64 rounding error of a single [*] or [/] is
  abstracted away; [round(x, 2)] is rounding to the nearest multiple of
  1/100 with ties going to the even neighbour.  Equality of floats is
  [Qeq] ([==]).  A division whose divisor can be zero returns a
  [PyResult], the others are guarded in the source by [max(., 1)] or
  [max(., 0.1)] or divide by a non-zero literal.

  Limits of the model.  Bounds on rounded results are stated so that
  they do not rest on what the abstraction hides: they compare values
  the code itself computes, count hundredths, or leave a margin, rather
  than assert an exact decimal bound that a binary64 result can miss by
  one unit in the last place.  Dividing by a zero print speed raises for a Python
  [float]; a [numpy.float64] volume, as the [/analyze] endpoint passes,
  gives [inf] or [nan] instead, so the theorem about the numbers of that
  endpoint assumes a print speed that is not zero.  Reading the volume,
  the area and the extents of a loaded mesh is taken to succeed.

  The rest of [compute_pipeline.py], the user store of
  [backend/api/auth.py] and the endpoints of [backend/api/main.py] follow.
  The libraries they call (trimesh, hashlib, the file system, passlib,
  jose, the card generator) are type classes: the code is modelled over
  any implementation of them, and an exception is an [Outcome]. *)

From Stdlib Require Import ZArith QArith Qminmax Qround Qabs Lqa Lia Bool String.
From stdpp Require Import gmap strings pretty.
From Equations Require Import Equations.

Local Open Scope Z_scope.

(** ** Python built-ins used by the two modules *)

Module Py.

(** Exceptions the modelled code can raise. *)
Inductive exn : Type :=
| ZeroDivisionError.

Inductive PyResult (A : Type) : Type :=
| Ok (a : A)
| Raise (e : exn).
Arguments Ok {A} a.
Arguments Raise {A} e.

Definition bind {A B : Type} (r : PyResult A) (k : A -> PyResult B)
  : PyResult B :=
  match r with
  | Ok a => k a
  | Raise e => Raise e
  end.

(** [a > b] and [a < b] on floats. *)
Definition gt (a b : Q) : bool :=
  match (a ?= b)%Q with Gt => true | _ => false end.

Definition lt (a b : Q) : bool :=
  match (a ?= b)%Q with Lt => true | _ => false end.

(** [max(a, b)]: the first argument is kept unless a later one is
    strictly greater; [min(a, b)] dually. *)
Definition max (a b : Q) : Q := if gt b a then b else a.
Definition min (a b : Q) : Q := if lt b a then b else a.

(** [max(t)] and [min(t)] of a 3-tuple: the same left-to-right scan. *)
Definition max3 (t : Q * Q * Q) : Q :=
  let '(x, y, z) := t in max (max x y) z.
Definition min3 (t : Q * Q * Q) : Q :=
  let '(x, y, z) := t in min (min x y) z.

(** [min(a, b)] on ints. *)
Definition imin (a b : Z) : Z := if b <? a then b else a.

(** [a / b] on floats; [b == 0] raises (for a Python [float] [a]; a
    [numpy.float64] gives [inf] or [nan], which [Q] does not have). *)
Definition truediv (a b : Q) : PyResult Q :=
  if Qeq_bool b 0 then Raise ZeroDivisionError else Ok (a / b)%Q.

(** Nearest integer, ties to even. *)
Definition round_half_even (x : Q) : Z :=
  let f := Qfloor x in
  match (x - inject_Z f ?= 1 # 2)%Q with
  | Lt => f
  | Gt => f + 1
  | Eq => if Z.even f then f else f + 1
  end.

(** [round(x, 2)]. *)
Definition round2 (x : Q) : Q := round_half_even (x * 100) # 100.

End Py.

(** ** backend/api/compute_pipeline.py *)

Module ModelAnalyzer.

(** What the scoring code observes of a [trimesh.Trimesh]:
    [len(mesh.faces)], [len(mesh.split())], [mesh.is_watertight] and
    [len(mesh.vertices)]. *)
Record Mesh : Type := {
  faces : N;
  split : N;
  is_watertight : bool;
  vertices : N
}.

(** The dict returned by [extract_geometry]. *)
Record Geometry : Type := {
  volume_cm3 : Q;
  bounding_box : Q * Q * Q;
  surface_area_cm2 : Q
}.

(** The dict returned by [analyze_mesh_quality]. *)
Record Quality : Type := {
  triangle_count : N;
  q_is_watertight : bool;
  shell_count : N;
  vertex_count : N
}.

Definition analyze_mesh_quality (mesh : Mesh) : Quality :=
  {| triangle_count := faces mesh;
     q_is_watertight := is_watertight mesh;
     shell_count := split mesh;
     vertex_count := vertices mesh |}.

Definition of_N (n : N) : Q := inject_Z (Z.of_N n).

(** The body of [compute_complexity_score] up to, and without, the final
    [min(score, 10)]: the value of the local [score] at the [return]. *)
Definition score_before_cap (mesh : Mesh) (geometry : Geometry) : Z :=
  let score := 0 in
  (* Triangle density (normalized) *)
  let tri_density := (of_N (faces mesh) / Py.max (volume_cm3 geometry) 1)%Q in
  let score :=
    if Py.gt tri_density 1000 then score + 2
    else if Py.gt tri_density 500 then score + 1
    else score in
  (* Multiple shells add complexity *)
  let shell_count := Z.of_N (split mesh) in
  let score :=
    if shell_count >? 3 then score + 2
    else if shell_count >? 1 then score + 1
    else score in
  (* Aspect ratio *)
  let bbox := bounding_box geometry in
  let max_dim := Py.max3 bbox in
  let min_dim := Py.min3 bbox in
  let aspect_ratio := (max_dim / Py.max min_dim 0.1)%Q in
  let score :=
    if Py.gt aspect_ratio 10 then score + 2
    else if Py.gt aspect_ratio 5 then score + 1
    else score in
  (* Non-watertight meshes need repair *)
  let score :=
    if negb (is_watertight mesh) then score + 2 else score in
  (* Surface area to volume ratio *)
  let sa_vol_ratio :=
    (surface_area_cm2 geometry / Py.max (volume_cm3 geometry) 0.1)%Q in
  let score :=
    if Py.gt sa_vol_ratio 50 then score + 2
    else if Py.gt sa_vol_ratio 25 then score + 1
    else score in
  score.

Definition compute_complexity_score (mesh : Mesh) (geometry : Geometry) : Z :=
  Py.imin (score_before_cap mesh geometry) 10.

(** The five risk-factor measures, as the locals of
    [compute_complexity_score] define them. *)
Definition tri_density (mesh : Mesh) (geometry : Geometry) : Q :=
  (of_N (faces mesh) / Py.max (volume_cm3 geometry) 1)%Q.

Definition aspect_ratio (geometry : Geometry) : Q :=
  (Py.max3 (bounding_box geometry)
   / Py.max (Py.min3 (bounding_box geometry)) 0.1)%Q.

Definition sa_vol_ratio (geometry : Geometry) : Q :=
  (surface_area_cm2 geometry / Py.max (volume_cm3 geometry) 0.1)%Q.

(** [mesh] with its watertight flag replaced. *)
Definition with_watertight (w : bool) (mesh : Mesh) : Mesh :=
  {| faces := faces mesh; split := split mesh;
     is_watertight := w; vertices := vertices mesh |}.

(** [geometry] with its volume and each of its extents raised to the
    floor 0.1 of the two guards [max(., 0.1)]. *)
Definition with_floor (geometry : Geometry) : Geometry :=
  let '(x, y, z) := bounding_box geometry in
  {| volume_cm3 := Py.max (volume_cm3 geometry) 0.1;
     bounding_box := (Py.max x 0.1, Py.max y 0.1, Py.max z 0.1)%Q;
     surface_area_cm2 := surface_area_cm2 geometry |}.

(** *** The scoring table of the specification

    One contribution per factor, "+2 if the measure is above the high
    threshold, else +1 if above the low one", summed and clamped; [Qmax]
    and [Qmin] are the Standard Library's. *)
Module Reference.

Definition tier (measure hi lo : Q) : Z :=
  if Qlt_le_dec hi measure then 2
  else if Qlt_le_dec lo measure then 1
  else 0.

Definition shell_tier (n : N) : Z :=
  if (3 <? n)%N then 2 else if (1 <? n)%N then 1 else 0.

Definition watertight_tier (w : bool) : Z := if w then 0 else 2.

Definition contributions (g : Geometry) (q : Quality) : list Z :=
  let '(x, y, z) := bounding_box g in
  [ tier (of_N (triangle_count q) / Qmax (volume_cm3 g) 1) 1000 500;
    shell_tier (shell_count q);
    tier (Qmax (Qmax x y) z / Qmax (Qmin (Qmin x y) z) 0.1) 10 5;
    watertight_tier (q_is_watertight q);
    tier (surface_area_cm2 g / Qmax (volume_cm3 g) 0.1) 50 25 ].

Definition score (g : Geometry) (q : Quality) : Z :=
  Z.min (fold_right Z.add 0 (contributions g q)) 10.

End Reference.

End ModelAnalyzer.

(** ** backend/api/pricing_engine.py *)

Module PricingEngine.

Import Py.

Notation "'let*' x ':=' e 'in' k" := (bind e (fun x => k))
  (at level 10, x name, e at level 100, k at level 200).

(** An entry of [self.materials]. *)
Record Material : Type := {
  density : Q;
  cost_per_gram : Q
}.

(** The attributes [__init__] sets. *)
Record Engine : Type := {
  default_density : Q;
  default_cost_per_gram : Q;
  fdm_print_speed : Q;
  materials : gmap string Material
}.

(** The three environment variables [__init__] reads, already parsed by
    [float]; [None] when the variable is not set. *)
Record Env : Type := {
  DEFAULT_MATERIAL_DENSITY : option Q;
  DEFAULT_COST_PER_GRAM : option Q;
  FDM_PRINT_SPEED : option Q
}.

Definition env_unset : Env :=
  {| DEFAULT_MATERIAL_DENSITY := None;
     DEFAULT_COST_PER_GRAM := None;
     FDM_PRINT_SPEED := None |}.

Definition getenv (v : option Q) (dflt : Q) : Q :=
  match v with Some x => x | None => dflt end.

Definition init (env : Env) : Engine :=
  {| default_density := getenv (DEFAULT_MATERIAL_DENSITY env) 1.24;
     default_cost_per_gram := getenv (DEFAULT_COST_PER_GRAM env) 0.02;
     fdm_print_speed := getenv (FDM_PRINT_SPEED env) 20.0;
     materials :=
       list_to_map
         [ ("PLA",   {| density := 1.24; cost_per_gram := 0.02 |});
           ("ABS",   {| density := 1.04; cost_per_gram := 0.025 |});
           ("PETG",  {| density := 1.27; cost_per_gram := 0.03 |});
           ("TPU",   {| density := 1.21; cost_per_gram := 0.05 |});
           ("Nylon", {| density := 1.14; cost_per_gram := 0.06 |});
           ("ASA",   {| density := 1.07; cost_per_gram := 0.035 |}) ] |}.

(** The module-level singleton, in a process with none of the three
    variables set. *)
Definition pricing_engine : Engine := init env_unset.

Definition calculate_mass (self : Engine) (volume_cm3 : Q)
    (material : string) (infill_percentage : Z) : Q :=
  let density :=
    match materials self !! material with
    | Some m => density m
    | None => default_density self
    end in
  let effective_density :=
    (density * (0.3 + 0.7 * (inject_Z infill_percentage / 100)))%Q in
  let mass_g := (volume_cm3 * effective_density)%Q in
  round2 mass_g.

Definition calculate_material_cost (self : Engine) (mass_g : Q)
    (material : string) : Q :=
  let cost_per_gram :=
    match materials self !! material with
    | Some m => cost_per_gram m
    | None => default_cost_per_gram self
    end in
  let cost := (mass_g * cost_per_gram)%Q in
  round2 cost.

Definition estimate_print_time (self : Engine) (volume_cm3 : Q)
    (complexity_score : Z) (infill_percentage : Z) : PyResult Q :=
  let* base_time := truediv volume_cm3 (fdm_print_speed self) in
  let complexity_multiplier := (1.0 + inject_Z complexity_score / 10.0)%Q in
  let infill_multiplier :=
    (0.8 + (inject_Z infill_percentage / 100.0) * 0.4)%Q in
  let total_time :=
    (base_time * complexity_multiplier * infill_multiplier)%Q in
  Ok (round2 total_time).

(** The dict returned by [get_recommended_settings]. *)
Record Settings : Type := {
  layer_height_mm : Q;
  infill_percentage : Z;
  supports_needed : bool;
  brim_recommended : bool;
  print_speed_mm_s : Z
}.

(** [self] is not used by the method and is left out. *)
Definition get_recommended_settings (complexity_score : Z)
    (bounding_box : Q * Q * Q) : Settings :=
  let layer_height :=
    if complexity_score >=? 7 then 0.12%Q
    else if complexity_score >=? 4 then 0.16%Q
    else 0.20%Q in
  let max_dim := max3 bounding_box in
  let infill :=
    if gt max_dim 200 || (complexity_score >=? 7) then 25 else 20 in
  let '(bb0, bb1, bb2) := bounding_box in
  let z_height := bb2 in
  let xy_max := max bb0 bb1 in
  let aspect_ratio := (z_height / max xy_max 1)%Q in
  let supports_needed := gt aspect_ratio 2 || (complexity_score >=? 6) in
  {| layer_height_mm := layer_height;
     infill_percentage := infill;
     supports_needed := supports_needed;
     brim_recommended := gt max_dim 150;
     print_speed_mm_s := if complexity_score >=? 6 then 50 else 60 |}.

(** The dict returned by [calculate_full_pricing]. *)
Record Pricing : Type := {
  mass_g : Q;
  material_cost_usd : Q;
  est_print_time_hours : Q;
  recommended_settings : Settings;
  material_used : string
}.

(** [infill] is the keyword argument [infill_percentage], [None] when the
    caller leaves it out. *)
Definition calculate_full_pricing (self : Engine) (volume_cm3 : Q)
    (complexity_score : Z) (bounding_box : Q * Q * Q) (material : string)
    (infill : option Z) : PyResult Pricing :=
  let settings := get_recommended_settings complexity_score bounding_box in
  let infill :=
    match infill with
    | None => infill_percentage settings
    | Some i => i
    end in
  let mass_g := calculate_mass self volume_cm3 material infill in
  let material_cost := calculate_material_cost self mass_g material in
  let* print_time :=
    estimate_print_time self volume_cm3 complexity_score infill in
  Ok {| mass_g := mass_g;
        material_cost_usd := material_cost;
        est_print_time_hours := print_time;
        recommended_settings := settings;
        material_used := material |}.

End PricingEngine.

(** ** Concrete inputs used by the examples below *)

Module Examples.

Import ModelAnalyzer PricingEngine.

(** A 50 x 30 x 20 mm box of 30 cm3, and the same mesh split into four
    shells. *)
Definition box_mesh : Mesh :=
  {| faces := 2000; split := 1; is_watertight := true; vertices := 1002 |}.
Definition box_geometry : Geometry :=
  {| volume_cm3 := 30; bounding_box := (50, 30, 20)%Q;
     surface_area_cm2 := 62 |}.
Definition four_shell_mesh : Mesh :=
  {| faces := 2000; split := 4; is_watertight := true; vertices := 1002 |}.

End Examples.

(** ** Exceptions that carry a message *)

Module Exc.

(** The exceptions the rest of the code raises or catches.  An exception
    raised inside a library call is a [LibraryError], known by its
    [str()]. *)
Inductive exception : Type :=
| ValueError (msg : string)
| HTTPException (status_code : Z) (detail : string)
| LibraryError (msg : string).

(** [str(e)]. *)
Definition str (e : exception) : string :=
  match e with
  | ValueError msg => msg
  | HTTPException status_code detail => pretty status_code +:+ ": " +:+ detail
  | LibraryError msg => msg
  end.

(** A call either returns a value or raises. *)
Inductive Outcome (A : Type) : Type :=
| Return (a : A)
| Throw (e : exception).
Arguments Return {A} a.
Arguments Throw {A} e.

#[global] Instance outcome_ret : MRet Outcome := fun A a => Return a.

#[global] Instance outcome_bind : MBind Outcome := fun A B k r =>
  match r with
  | Return a => k a
  | Throw e => Throw e
  end.

(** Truth value of a [str]: the empty string is false. *)
Definition truthy (s : string) : bool :=
  match s with
  | EmptyString => false
  | String _ _ => true
  end.

End Exc.

(** ** backend/api/compute_pipeline.py: loading, geometry, hashing, pipeline *)

Module Pipeline.

Import Py ModelAnalyzer Exc.

(** A [trimesh.Trimesh] as the pipeline reads it: the counts and the flag
    of [Mesh], with [mesh.volume] (mm3), [mesh.area] (mm2) and
    [mesh.bounding_box.extents] (mm).  A mesh on which one of these reads
    raises (an empty mesh) has no such record. *)
Record Trimesh : Type := {
  topology : Mesh;
  volume : Q;
  area : Q;
  extents : Q * Q * Q
}.

(** A mesh of moderate size: volume, area and extents up to 10^12 in
    absolute value. *)
Definition moderate (mesh : Trimesh) : Prop :=
  let '(x, y, z) := extents mesh in
  (Qabs (volume mesh) <= 1000000000000
   /\ Qabs (area mesh) <= 1000000000000
   /\ Qabs x <= 1000000000000
   /\ Qabs y <= 1000000000000
   /\ Qabs z <= 1000000000000)%Q.

(** What [trimesh.load] can hand back: a mesh, a list of meshes, or a
    scene, which is known by what [dump(concatenate=True)] gives. *)
Inductive Loaded : Type :=
| LoadedMesh (mesh : Trimesh)
| LoadedList (meshes : list Trimesh)
| LoadedScene (dump : Outcome Trimesh).

(** The calls into the mesh library. *)
Class TrimeshLib : Type := {
  trimesh_load : string -> Outcome Loaded;
  concatenate : list Trimesh -> Outcome Trimesh;
  (** [mesh.scene()], [save_image] and the write of the PNG to a path *)
  render_to : Trimesh -> string -> Outcome unit
}.

(** The same library with another renderer behind [render_to]. *)
Definition with_renderer (lib : TrimeshLib)
    (render : Trimesh -> string -> Outcome unit) : TrimeshLib :=
  {| trimesh_load := @trimesh_load lib;
     concatenate := @concatenate lib;
     render_to := render |}.

(** [hashlib.sha256()], [update] and [hexdigest]. *)
Class Hashlib : Type := {
  hash_state : Type;
  sha256 : hash_state;
  update : hash_state -> list Byte.byte -> hash_state;
  hexdigest : hash_state -> string
}.

(** [open(path, "rb")] gives the bytes of the file; [Path.mkdir]. *)
Class FileSystem : Type := {
  open_rb : string -> Outcome (list Byte.byte);
  mkdir : string -> Outcome unit
}.

Definition extract_geometry (mesh : Trimesh) : Geometry :=
  let volume_cm3 := (volume mesh / 1000.0)%Q in
  let '(x, y, z) := extents mesh in
  let surface_area_cm2 := (area mesh / 100.0)%Q in
  {| volume_cm3 := round2 volume_cm3;
     bounding_box := (round2 x, round2 y, round2 z);
     surface_area_cm2 := round2 surface_area_cm2 |}.

(** [f.read(n)] on the bytes not read yet: the block and what is left. *)
Definition read (n : nat) (f : list Byte.byte)
  : list Byte.byte * list Byte.byte :=
  (take n f, drop n f).

Definition block_size : nat := 4096.

Definition inspect {A : Type} (a : A) : {b : A | a = b} := exist _ a eq_refl.

(** The blocks [iter(lambda: f.read(4096), b"")] yields: it stops at the
    first empty block. *)
Equations? read_blocks (f : list Byte.byte) : list (list Byte.byte)
  by wf (length f) Peano.lt :=
  read_blocks f with inspect (read block_size f) := {
    | exist _ ([], _) _ => [];
    | exist _ (byte_block, f') E => byte_block :: read_blocks f' }.
Proof.
  destruct f as [| c f]; [discriminate |].
  rewrite length_drop. cbn. lia.
Defined.

Section WithLibraries.

Context {trimesh : TrimeshLib} {hashlib : Hashlib} {fs : FileSystem}.

Definition load_model (file_path : string) : Outcome Trimesh :=
  let attempt :=
    mesh ← trimesh_load file_path;
    match mesh with
    | LoadedList meshes =>
        match meshes with
        | [] => Throw (ValueError "File contains no meshes")
        | [m] => Return m
        | _ => concatenate meshes
        end
    | LoadedScene dump => dump
    | LoadedMesh m => Return m
    end in
  match attempt with
  | Return mesh => Return mesh
  | Throw e => Throw (ValueError ("Failed to load 3D model: " +:+ str e))
  end.

Definition compute_file_hash (file_path : string) : Outcome string :=
  f ← open_rb file_path;
  let sha256_hash := fold_left update (read_blocks f) sha256 in
  Return (hexdigest sha256_hash).

(** The warning printed on failure is not modelled. *)
Definition generate_preview_image (mesh : Trimesh) (output_path : string)
  : option string :=
  match render_to mesh output_path with
  | Return _ => Some output_path
  | Throw _ => None
  end.

(** The dict returned by [analyze_model]. *)
Record Analysis : Type := {
  file_hash : string;
  geometry : Geometry;
  quality : Quality;
  complexity_score : Z;
  preview_image_path : option string
}.

Definition analyze_model (file_path : string) (output_dir : option string)
  : Outcome Analysis :=
  mesh ← load_model file_path;
  let geometry := extract_geometry mesh in
  let quality := analyze_mesh_quality (topology mesh) in
  let complexity := compute_complexity_score (topology mesh) geometry in
  preview_path ←
    match output_dir with
    | Some dir =>
        if truthy dir then
          _ ← mkdir dir;
          file_hash ← compute_file_hash file_path;
          let preview_path :=
            dir +:+ "/" +:+ substring 0 16 file_hash +:+ "_preview.png" in
          Return (generate_preview_image mesh preview_path)
        else Return None
    | None => Return None
    end;
  file_hash ← compute_file_hash file_path;
  Return {| file_hash := file_hash;
            geometry := geometry;
            quality := quality;
            complexity_score := complexity;
            preview_image_path := preview_path |}.

End WithLibraries.

End Pipeline.

(** ** backend/api/auth.py: the in-memory user store *)

Module Auth.

Import Exc.

(** [pwd_context.hash] draws a fresh salt at each call, which is made an
    argument here; [pwd_context.verify]. *)
Class Passlib : Type := {
  salt : Type;
  pwd_context_hash : salt -> string -> string;
  pwd_context_verify : string -> string -> bool
}.

(** A user dict; [created_at] is a [datetime], kept as a timestamp. *)
Record User : Type := {
  id : Z;
  username : string;
  email : string;
  hashed_password : string;
  subscription_tier : string;
  cards_generated_this_month : Z;
  created_at : Z
}.

Record UserStore : Type := {
  users : gmap string User;
  user_id_counter : Z
}.

(** [user['cards_generated_this_month'] += 1]. *)
Definition count_one_more (user : User) : User :=
  {| id := id user;
     username := username user;
     email := email user;
     hashed_password := hashed_password user;
     subscription_tier := subscription_tier user;
     cards_generated_this_month := cards_generated_this_month user + 1;
     created_at := created_at user |}.

Section WithPasslib.

Context {passlib : Passlib}.

Definition verify_password (plain_password hashed_password : string) : bool :=
  pwd_context_verify plain_password hashed_password.

Definition get_password_hash (s : salt) (password : string) : string :=
  pwd_context_hash s password.

Definition _create_demo_user (self : UserStore) (s : salt) (now : Z)
  : UserStore :=
  let demo_user :=
    {| id := user_id_counter self;
       username := "demo";
       email := "demo@kitforge.com";
       hashed_password := get_password_hash s "demo123";
       subscription_tier := "free";
       cards_generated_this_month := 0;
       created_at := now |} in
  {| users := <["demo" := demo_user]> (users self);
     user_id_counter := user_id_counter self + 1 |}.

(** [UserStore()]. *)
Definition new (s : salt) (now : Z) : UserStore :=
  _create_demo_user {| users := ∅; user_id_counter := 1 |} s now.

Definition get_user (self : UserStore) (username : string) : option User :=
  users self !! username.

(** The store after the call, and what the call returns or raises. *)
Definition create_user (self : UserStore) (s : salt) (now : Z)
    (username email password : string) : UserStore * Outcome User :=
  match users self !! username with
  | Some _ => (self, Throw (ValueError "Username already exists"))
  | None =>
      let user :=
        {| id := user_id_counter self;
           username := username;
           email := email;
           hashed_password := get_password_hash s password;
           subscription_tier := "free";
           cards_generated_this_month := 0;
           created_at := now |} in
      ({| users := <[username := user]> (users self);
          user_id_counter := user_id_counter self + 1 |},
       Return user)
  end.

Definition authenticate_user (self : UserStore) (username password : string)
  : option User :=
  match get_user self username with
  | None => None
  | Some user =>
      if negb (verify_password password (hashed_password user)) then None
      else Some user
  end.

Definition increment_card_count (self : UserStore) (username : string)
  : UserStore :=
  match users self !! username with
  | Some user =>
      {| users := <[username := count_one_more user]> (users self);
         user_id_counter := user_id_counter self |}
  | None => self
  end.

(** [FREE_TIER_CARDS_PER_MONTH] is the environment variable, parsed by
    [int]; [None] when it is not set. *)
Definition can_generate_card (self : UserStore)
    (FREE_TIER_CARDS_PER_MONTH : option Z) (username : string)
  : bool * string :=
  match get_user self username with
  | None => (false, "User not found")
  | Some user =>
      if String.eqb (subscription_tier user) "paid"
      then (true, "Unlimited access")
      else
        let free_limit := default 5 FREE_TIER_CARDS_PER_MONTH in
        if cards_generated_this_month user >=? free_limit
        then (false,
              "Free tier limit reached (" +:+ pretty free_limit
              +:+ " cards/month)")
        else (true,
              "Free tier: " +:+ pretty (cards_generated_this_month user)
              +:+ "/" +:+ pretty free_limit +:+ " used")
  end.

(** The stores the methods above can produce. *)
Inductive reachable : UserStore -> Prop :=
| reachable_new (s : salt) (now : Z) : reachable (new s now)
| reachable_create_user (self : UserStore) (s : salt) (now : Z)
    (username email password : string) :
    reachable self ->
    reachable (fst (create_user self s now username email password))
| reachable_increment (self : UserStore) (username : string) :
    reachable self ->
    reachable (increment_card_count self username).

(** What holds of every user of such a store: it is filed under its own
    name, on the free tier, with a count that is not negative and an id
    below the counter. *)
Definition well_formed (self : UserStore) : Prop :=
  1 <= user_id_counter self
  /\ forall name user,
       users self !! name = Some user ->
       username user = name
       /\ subscription_tier user = "free"
       /\ 0 <= cards_generated_this_month user
       /\ 1 <= id user < user_id_counter self.

End WithPasslib.

End Auth.

(** ** backend/api/main.py: the endpoints *)

Module Main.

Import Py Exc ModelAnalyzer Pipeline Auth.

(** [jose.jwt] behind [create_access_token] and [decode_access_token]:
    the token for a subject, a lifetime in minutes and the time of the
    call; the payload of a token, or [None] on [JWTError]; the "sub" entry
    of a payload. *)
Class Jose : Type := {
  payload : Type;
  create_access_token : string -> Z -> Z -> string;
  decode_access_token : string -> option payload;
  payload_sub : payload -> option string
}.

(** [backend.api.card_generator], which writes the card and returns its
    path. *)
Class CardGenerator : Type := {
  card_data : Type;
  card_generator_generate_card : card_data -> string -> bool -> Outcome string
}.

(** [Path.exists], [Path.stem] and [str.lower]. *)
Class Builtins : Type := {
  path_exists : string -> bool;
  path_stem : string -> string;
  str_lower : string -> string
}.

(** The settings of the process: [ACCESS_TOKEN_EXPIRE_MINUTES],
    [FREE_TIER_CARDS_PER_MONTH] when set, [str(OUTPUT_DIR)], the pricing
    engine, and the text of a [ZeroDivisionError]. *)
Class Config : Type := {
  ACCESS_TOKEN_EXPIRE_MINUTES : Z;
  FREE_TIER_CARDS_PER_MONTH : option Z;
  OUTPUT_DIR : string;
  pricing_engine : PricingEngine.Engine;
  zero_division_message : string
}.

Record Token : Type := {
  access_token : string;
  token_type : string
}.

Record UserInfo : Type := {
  info_username : string;
  info_email : string;
  info_subscription_tier : string;
  info_cards_generated_this_month : Z
}.

Record CardResponse : Type := {
  success : bool;
  format : string;
  output_path : string;
  cards_remaining : string
}.

(** The dict returned by the [/analyze] endpoint. *)
Record AnalyzeResult : Type := {
  part_name : string;
  file_hash : string;
  volume_cm3 : Q;
  surface_area_cm2 : Q;
  bounding_box : Q * Q * Q;
  mass_g : Q;
  triangle_count : N;
  is_watertight : bool;
  shell_count : N;
  complexity_score : Z;
  est_material_cost : Q;
  est_print_time_hours : Q;
  recommended_layer_height : Q;
  infill_recommended : Z;  (* the key for the recommended infill *)
  preview_image_path : option string
}.

Section WithServices.

Context {passlib : Passlib} {jose : Jose} {card_generator : CardGenerator}
        {builtins : Builtins} {config : Config}
        {trimesh : TrimeshLib} {hashlib : Hashlib} {fs : FileSystem}.

Definition get_current_user (user_store : UserStore) (token : string)
  : Outcome User :=
  match decode_access_token token with
  | None => Throw (HTTPException 401 "Invalid authentication credentials")
  | Some payload =>
      match payload_sub payload with
      | None => Throw (HTTPException 401 "Invalid token")
      | Some username =>
          match get_user user_store username with
          | None => Throw (HTTPException 401 "User not found")
          | Some user => Return user
          end
      end
  end.

Definition register (user_store : UserStore) (s : salt) (now : Z)
    (username email password : string) : UserStore * Outcome Token :=
  match create_user user_store s now username email password with
  | (user_store', Return user) =>
      let access_token :=
        create_access_token (Auth.username user) ACCESS_TOKEN_EXPIRE_MINUTES
          now in
      (user_store',
       Return {| access_token := access_token; token_type := "bearer" |})
  | (user_store', Throw (ValueError msg)) =>
      (user_store', Throw (HTTPException 400 msg))
  | (user_store', Throw e) => (user_store', Throw e)
  end.

Definition login (user_store : UserStore) (now : Z)
    (username password : string) : Outcome Token :=
  match authenticate_user user_store username password with
  | None => Throw (HTTPException 401 "Incorrect username or password")
  | Some user =>
      let access_token :=
        create_access_token (Auth.username user) ACCESS_TOKEN_EXPIRE_MINUTES
          now in
      Return {| access_token := access_token; token_type := "bearer" |}
  end.

Definition get_current_user_info (current_user : User) : UserInfo :=
  {| info_username := Auth.username current_user;
     info_email := email current_user;
     info_subscription_tier := subscription_tier current_user;
     info_cards_generated_this_month :=
       cards_generated_this_month current_user |}.

(** [pricing_engine.calculate_full_pricing] with the defaults the endpoint
    leaves in place: material 'PLA' and no explicit infill.  A zero print
    speed is the error of [Py.truediv] here; what is proved of the
    numbers of an answer assumes a speed that is not zero. *)
Definition price (analysis : Analysis) : Outcome PricingEngine.Pricing :=
  match
    PricingEngine.calculate_full_pricing pricing_engine
      (ModelAnalyzer.volume_cm3 (geometry analysis))
      (Pipeline.complexity_score analysis)
      (ModelAnalyzer.bounding_box (geometry analysis))
      "PLA" None
  with
  | Ok pricing => Return pricing
  | Raise ZeroDivisionError => Throw (LibraryError zero_division_message)
  end.

Definition analyze_model (file_path : string) (part_name : option string)
    (current_user : User) : Outcome AnalyzeResult :=
  if negb (path_exists file_path)
  then Throw (HTTPException 404 "File not found")
  else
    let attempt :=
      analysis ← Pipeline.analyze_model file_path (Some OUTPUT_DIR);
      pricing ← price analysis;
      Return
        {| part_name :=
             match part_name with
             | Some name => if truthy name then name else path_stem file_path
             | None => path_stem file_path
             end;
           file_hash := Pipeline.file_hash analysis;
           volume_cm3 := ModelAnalyzer.volume_cm3 (geometry analysis);
           surface_area_cm2 :=
             ModelAnalyzer.surface_area_cm2 (geometry analysis);
           bounding_box := ModelAnalyzer.bounding_box (geometry analysis);
           mass_g := PricingEngine.mass_g pricing;
           triangle_count := ModelAnalyzer.triangle_count (quality analysis);
           is_watertight := q_is_watertight (quality analysis);
           shell_count := ModelAnalyzer.shell_count (quality analysis);
           complexity_score := Pipeline.complexity_score analysis;
           est_material_cost := PricingEngine.material_cost_usd pricing;
           est_print_time_hours := PricingEngine.est_print_time_hours pricing;
           recommended_layer_height :=
             PricingEngine.layer_height_mm
               (PricingEngine.recommended_settings pricing);
           infill_recommended :=
             PricingEngine.infill_percentage
               (PricingEngine.recommended_settings pricing);
           preview_image_path := Pipeline.preview_image_path analysis |} in
    match attempt with
    | Return result => Return result
    | Throw e => Throw (HTTPException 500 ("Analysis failed: " +:+ str e))
    end.

Definition generate_card (user_store : UserStore) (data : card_data)
    (format : string) (current_user : User)
  : UserStore * Outcome CardResponse :=
  let '(can_generate, reason) :=
    can_generate_card user_store FREE_TIER_CARDS_PER_MONTH
      (Auth.username current_user) in
  if negb can_generate
  then (user_store, Throw (HTTPException 403 reason))
  else if String.eqb (str_lower format) "pdf"
          && negb (String.eqb (subscription_tier current_user) "paid")
  then (user_store,
        Throw (HTTPException 403
                 "PDF export is only available for paid tier users"))
  else
    match card_generator_generate_card data format true with
    | Return output_path =>
        let user_store' :=
          increment_card_count user_store (Auth.username current_user) in
        (user_store',
         Return
           {| success := true;
              format := format;
              output_path := output_path;
              cards_remaining :=
                snd (can_generate_card user_store' FREE_TIER_CARDS_PER_MONTH
                       (Auth.username current_user)) |})
    | Throw e =>
        (user_store,
         Throw (HTTPException 500 ("Card generation failed: " +:+ str e)))
    end.

(** The [/generate-card] request: the dependency [get_current_user] runs
    first, on the bearer token. *)
Definition generate_card_request (user_store : UserStore) (token : string)
    (data : card_data) (format : string)
  : UserStore * Outcome CardResponse :=
  match get_current_user user_store token with
  | Return current_user => generate_card user_store data format current_user
  | Throw e => (user_store, Throw e)
  end.

(** The stores the two endpoints that write to the store can produce,
    starting from [UserStore()]. *)
Inductive served : UserStore -> Prop :=
| served_new (s : salt) (now : Z) : served (Auth.new s now)
| served_register (user_store : UserStore) (s : salt) (now : Z)
    (username email password : string) :
    served user_store ->
    served (fst (register user_store s now username email password))
| served_generate_card (user_store : UserStore) (token : string)
    (data : card_data) (format : string) :
    served user_store ->
    served (fst (generate_card_request user_store token data format)).

End WithServices.

End Main.

(** ** Stand-ins for the libraries, used by the examples *)

Module Toy.

Import ModelAnalyzer Exc Pipeline Auth Main Examples.

(** The box of [create_test_stl.py]: 50 x 30 x 20 mm. *)
Definition box : Trimesh :=
  {| topology := box_mesh; volume := 30000; area := 6200;
     extents := (50, 30, 20)%Q |}.

#[export] Instance toy_trimesh : TrimeshLib :=
  {| trimesh_load := fun path =>
       if String.eqb path "part.stl" then Return (LoadedMesh box)
       else if String.eqb path "empty.3mf" then Return (LoadedList [])
       else Throw (LibraryError "file_type not supported");
     concatenate := fun meshes =>
       match meshes with
       | m :: _ => Return m
       | [] => Throw (LibraryError "need at least one mesh")
       end;
     render_to := fun _ _ => Throw (LibraryError "no display") |}.

(** A hash state that just collects the bytes. *)
#[export] Instance toy_hashlib : Hashlib :=
  {| hash_state := list Byte.byte;
     sha256 := [];
     update := fun h block => app h block;
     hexdigest := fun h => pretty (length h) |}.

#[export] Instance toy_fs : FileSystem :=
  {| open_rb := fun path =>
       if String.eqb path "part.stl"
       then Return [Byte.x73; Byte.x6f; Byte.x6c; Byte.x69; Byte.x64]
       else Throw (LibraryError "No such file or directory");
     mkdir := fun _ => Return tt |}.

(** A hash that ignores the salt. *)
#[export] Instance toy_passlib : Passlib :=
  {| salt := unit;
     pwd_context_hash := fun _ password => "hash(" +:+ password +:+ ")";
     pwd_context_verify := fun plain hashed =>
       String.eqb hashed ("hash(" +:+ plain +:+ ")") |}.

(** A token that is its subject. *)
#[export] Instance toy_jose : Jose :=
  {| payload := string;
     create_access_token := fun sub _ _ => sub;
     decode_access_token := fun token => Some token;
     payload_sub := fun payload => Some payload |}.

#[export] Instance toy_card_generator : CardGenerator :=
  {| card_data := unit;
     card_generator_generate_card := fun _ format _ =>
       Return ("output/card." +:+ format) |}.

#[export] Instance toy_builtins : Builtins :=
  {| path_exists := fun path => String.eqb path "part.stl";
     path_stem := fun _ => "part";
     str_lower := fun s => s |}.

#[export] Instance toy_config : Config :=
  {| ACCESS_TOKEN_EXPIRE_MINUTES := 30;
     FREE_TIER_CARDS_PER_MONTH := None;
     OUTPUT_DIR := "output";
     pricing_engine := PricingEngine.pricing_engine;
     zero_division_message := "float division by zero" |}.

(** [UserStore()] at time 0, and the same after "ada" registered. *)
Definition store0 : UserStore := Auth.new tt 0.
Definition store1 : UserStore :=
  fst (create_user store0 tt 1 "ada" "ada@example.org" "s3cret").

End Toy.


(** ** Facts about the built-ins *)

Module PyFacts.

Import Py.

(** Decides a comparison of two concrete rationals by evaluation. *)
Ltac qcompute := vm_compute; first [reflexivity | discriminate].

Lemma gt_lt (a b : Q) : gt a b = true <-> (b < a)%Q.
Proof.
  unfold gt. change (b < a)%Q with (a > b)%Q. rewrite Qgt_alt.
  destruct (a ?= b)%Q; split; congruence.
Qed.

Lemma gt_le (a b : Q) : gt a b = false <-> (a <= b)%Q.
Proof.
  rewrite <- not_true_iff_false, gt_lt. split.
  - apply Qnot_lt_le.
  - apply Qle_not_lt.
Qed.

Lemma lt_lt (a b : Q) : lt a b = true <-> (a < b)%Q.
Proof.
  unfold lt. rewrite Qlt_alt.
  destruct (a ?= b)%Q; split; congruence.
Qed.

Lemma gt_reflect (a b : Q) : reflect (b < a)%Q (gt a b).
Proof. apply iff_reflect. symmetry. apply gt_lt. Qed.

Lemma lt_reflect (a b : Q) : reflect (a < b)%Q (lt a b).
Proof. apply iff_reflect. symmetry. apply lt_lt. Qed.

(** A measure that grows keeps every threshold it had crossed. *)
Lemma gt_mono (a b t : Q) : (a <= b)%Q -> gt a t = true -> gt b t = true.
Proof. rewrite !gt_lt. intros Hab Ht. lra. Qed.

Lemma max_ge_l (a b : Q) : (a <= max a b)%Q.
Proof. unfold max. destruct (gt_reflect b a); lra. Qed.

Lemma max_ge_r (a b : Q) : (b <= max a b)%Q.
Proof.
  unfold max. destruct (gt_reflect b a) as [H | H]; [lra |].
  apply Qnot_lt_le in H. exact H.
Qed.

Lemma imin_min (a b : Z) : imin a b = Z.min a b.
Proof. unfold imin. destruct (Z.ltb_spec b a); lia. Qed.

Lemma truediv_ok (a b : Q) : ~ (b == 0)%Q -> truediv a b = Ok (a / b)%Q.
Proof.
  intros H. unfold truediv.
  destruct (Qeq_bool b 0) eqn:E; [| reflexivity].
  apply Qeq_bool_iff in E. contradiction.
Qed.

End PyFacts.

(** ** Properties of the complexity score *)

Module ScoreFacts.

Import Py PyFacts ModelAnalyzer Examples.

(** Python's [max] and [min] return the Standard Library's. *)
Lemma max_Qmax (a b : Q) : max a b = Qmax a b.
Proof.
  unfold max, gt, Qmax, GenericMinMax.gmax.
  rewrite <- (Qcompare_antisym a b).
  destruct (a ?= b)%Q; reflexivity.
Qed.

Lemma min_Qmin (a b : Q) : min a b = Qmin a b.
Proof.
  unfold min, lt, Qmin, GenericMinMax.gmin.
  rewrite <- (Qcompare_antisym a b).
  destruct (a ?= b)%Q; reflexivity.
Qed.

Lemma tier_gt (m hi lo : Q) :
  Reference.tier m hi lo =
  if gt m hi then 2 else if gt m lo then 1 else 0.
Proof.
  unfold Reference.tier.
  destruct (gt_reflect m hi), (Qlt_le_dec hi m); try lra;
    destruct (gt_reflect m lo), (Qlt_le_dec lo m); try reflexivity; lra.
Qed.

Lemma tier_range (m hi lo : Q) : 0 <= Reference.tier m hi lo <= 2.
Proof.
  unfold Reference.tier.
  destruct (Qlt_le_dec hi m); [lia |]. destruct (Qlt_le_dec lo m); lia.
Qed.

Lemma tier_mono (m m' hi lo : Q) :
  (m <= m')%Q -> Reference.tier m hi lo <= Reference.tier m' hi lo.
Proof.
  intros H. unfold Reference.tier.
  destruct (Qlt_le_dec hi m), (Qlt_le_dec hi m'); try lia; try lra;
    destruct (Qlt_le_dec lo m), (Qlt_le_dec lo m'); try lia; lra.
Qed.

Lemma shell_tier_range (n : N) : 0 <= Reference.shell_tier n <= 2.
Proof.
  unfold Reference.shell_tier.
  destruct (3 <? n)%N; [lia |]. destruct (1 <? n)%N; lia.
Qed.

Lemma shell_tier_mono (n n' : N) :
  (n <= n')%N -> Reference.shell_tier n <= Reference.shell_tier n'.
Proof.
  intros H. unfold Reference.shell_tier.
  destruct (N.ltb_spec 3 n), (N.ltb_spec 3 n'); try lia;
    destruct (N.ltb_spec 1 n), (N.ltb_spec 1 n'); lia.
Qed.

(** The divisors of the three ratios are guarded: none is zero, so none
    of the divisions of [compute_complexity_score] and of
    [get_recommended_settings] can raise. *)
Lemma guarded_divisor_positive (a floor : Q) :
  (0 < floor)%Q -> (0 < max a floor)%Q.
Proof.
  intros H. pose proof (max_ge_r a floor). lra.
Qed.

(** The accumulated [score] is the sum of the five tiers. *)
Lemma score_before_cap_sum (mesh : Mesh) (g : Geometry) :
  score_before_cap mesh g =
  Reference.tier (tri_density mesh g) 1000 500
  + Reference.shell_tier (split mesh)
  + Reference.tier (aspect_ratio g) 10 5
  + Reference.watertight_tier (is_watertight mesh)
  + Reference.tier (sa_vol_ratio g) 50 25.
Proof.
  rewrite !tier_gt.
  unfold score_before_cap, tri_density, aspect_ratio, sa_vol_ratio,
    Reference.shell_tier, Reference.watertight_tier.
  rewrite !Z.gtb_ltb.
  change 3 with (Z.of_N 3). change 1 with (Z.of_N 1).
  destruct (N.ltb_spec 3 (split mesh)), (Z.ltb_spec (Z.of_N 3) (Z.of_N (split mesh)));
    try lia;
    destruct (N.ltb_spec 1 (split mesh)), (Z.ltb_spec (Z.of_N 1) (Z.of_N (split mesh)));
    try lia;
    repeat match goal with
           | |- context [if gt ?a ?b then _ else _] => destruct (gt a b)
           end;
    destruct (is_watertight mesh); reflexivity.
Qed.

Lemma score_before_cap_range (mesh : Mesh) (g : Geometry) :
  0 <= score_before_cap mesh g <= 10.
Proof.
  rewrite score_before_cap_sum.
  pose proof (tier_range (tri_density mesh g) 1000 500).
  pose proof (shell_tier_range (split mesh)).
  pose proof (tier_range (aspect_ratio g) 10 5).
  pose proof (tier_range (sa_vol_ratio g) 50 25).
  unfold Reference.watertight_tier. destruct (is_watertight mesh); lia.
Qed.

Lemma compute_uncapped (mesh : Mesh) (g : Geometry) :
  compute_complexity_score mesh g = score_before_cap mesh g.
Proof.
  unfold compute_complexity_score. rewrite imin_min.
  pose proof (score_before_cap_range mesh g). lia.
Qed.

(** C1: for every mesh and geometry record, [compute_complexity_score]
    returns the thresholded sum of the specification's table, taken on
    the geometry record and on the quality record [analyze_mesh_quality]
    derives from the same mesh, clamped to at most 10; the result lies
    in [0, 10]. *)
Theorem compute_complexity_score_reference (mesh : Mesh) (g : Geometry) :
  compute_complexity_score mesh g
  = Reference.score g (analyze_mesh_quality mesh)
  /\ 0 <= compute_complexity_score mesh g <= 10.
Proof.
  split.
  - unfold compute_complexity_score. rewrite imin_min, score_before_cap_sum.
    unfold Reference.score, Reference.contributions, tri_density,
      aspect_ratio, sa_vol_ratio, max3, min3.
    destruct (bounding_box g) as [[x y] z]. simpl.
    rewrite !max_Qmax, !min_Qmin. f_equal. lia.
  - rewrite compute_uncapped. apply score_before_cap_range.
Qed.

(** C9: the five contributions are each at most 2, so the sum
    accumulated before the [return] never exceeds 10, the final
    [min(score, 10)] never truncates, and the returned score is the raw
    sum. *)
Theorem cap_never_truncates (mesh : Mesh) (g : Geometry) :
  Forall (fun c => 0 <= c <= 2)
    (Reference.contributions g (analyze_mesh_quality mesh))
  /\ score_before_cap mesh g <= 10
  /\ compute_complexity_score mesh g = score_before_cap mesh g.
Proof.
  split; [| split].
  - unfold Reference.contributions.
    destruct (bounding_box g) as [[x y] z].
    repeat constructor;
      try apply tier_range; try apply shell_tier_range;
      unfold Reference.watertight_tier;
      destruct (q_is_watertight (analyze_mesh_quality mesh)); lia.
  - apply score_before_cap_range.
  - apply compute_uncapped.
Qed.

(** C3: whatever the other factors are, the score of a mesh that is not
    watertight is the score of the same mesh made watertight, plus
    exactly 2. *)
Theorem non_watertight_adds_two (mesh : Mesh) (g : Geometry) :
  compute_complexity_score (with_watertight false mesh) g
  = compute_complexity_score (with_watertight true mesh) g + 2.
Proof.
  rewrite !compute_uncapped, !score_before_cap_sum.
  unfold tri_density. simpl. lia.
Qed.

(** C2: when no risk-factor measure decreases from one input to the
    other (triangle density, shell count, aspect ratio, surface to
    volume ratio, and watertight not turning from false to true), the
    score does not decrease, and both scores lie in [0, 10].  Two inputs
    that differ in one increased measure are the special case with the
    other four measures equal. *)
Theorem score_monotone (m1 m2 : Mesh) (g1 g2 : Geometry) :
  (tri_density m1 g1 <= tri_density m2 g2)%Q ->
  (split m1 <= split m2)%N ->
  (aspect_ratio g1 <= aspect_ratio g2)%Q ->
  (is_watertight m2 = true -> is_watertight m1 = true) ->
  (sa_vol_ratio g1 <= sa_vol_ratio g2)%Q ->
  compute_complexity_score m1 g1 <= compute_complexity_score m2 g2
  /\ 0 <= compute_complexity_score m1 g1 <= 10
  /\ 0 <= compute_complexity_score m2 g2 <= 10.
Proof.
  intros Htd Hsh Har Hwt Hsv.
  rewrite !compute_uncapped.
  split; [| split; apply score_before_cap_range].
  rewrite !score_before_cap_sum.
  pose proof (tier_mono _ _ 1000 500 Htd).
  pose proof (shell_tier_mono _ _ Hsh).
  pose proof (tier_mono _ _ 10 5 Har).
  pose proof (tier_mono _ _ 50 25 Hsv).
  assert (Reference.watertight_tier (is_watertight m1)
          <= Reference.watertight_tier (is_watertight m2)).
  { unfold Reference.watertight_tier.
    destruct (is_watertight m1), (is_watertight m2);
      try (specialize (Hwt eq_refl); discriminate Hwt); lia. }
  lia.
Qed.

Lemma score_monotone_witness :
  compute_complexity_score box_mesh box_geometry
  <= compute_complexity_score four_shell_mesh box_geometry
  /\ 0 <= compute_complexity_score box_mesh box_geometry <= 10
  /\ 0 <= compute_complexity_score four_shell_mesh box_geometry <= 10.
Proof.
  apply (score_monotone box_mesh four_shell_mesh box_geometry box_geometry).
  - apply Qle_refl.
  - qcompute.
  - apply Qle_refl.
  - intros _. reflexivity.
  - apply Qle_refl.
Defined.

End ScoreFacts.

(** ** Rounding to two decimals *)

Module RoundFacts.

Import Py PyFacts.

Local Open Scope Q_scope.

Lemma floor_bounds (x : Q) :
  inject_Z (Qfloor x) <= x /\ x < inject_Z (Qfloor x) + 1.
Proof.
  split; [apply Qfloor_le |].
  pose proof (Qlt_floor x) as H.
  rewrite inject_Z_plus in H. exact H.
Qed.

(** The three ways [round_half_even] can go, by the fractional part. *)
Lemma round_half_even_cases (x : Q) :
  (x - inject_Z (Qfloor x) < 1 # 2 /\ round_half_even x = Qfloor x)
  \/ (1 # 2 < x - inject_Z (Qfloor x)
      /\ round_half_even x = (Qfloor x + 1)%Z)
  \/ (x - inject_Z (Qfloor x) == 1 # 2
      /\ (round_half_even x = Qfloor x
          \/ round_half_even x = (Qfloor x + 1)%Z)
      /\ Z.even (round_half_even x) = true).
Proof.
  unfold round_half_even. set (f := Qfloor x).
  destruct (Qcompare_spec (x - inject_Z f) (1 # 2)) as [E | L | G].
  - right. right. split; [exact E |].
    destruct (Z.even f) eqn:Ev.
    + split; [left; reflexivity | exact Ev].
    + split; [right; reflexivity |].
      rewrite Z.even_add, Ev. reflexivity.
  - left. split; [exact L | reflexivity].
  - right. left. split; [exact G | reflexivity].
Qed.

(** Rounding moves a number by at most one half. *)
Lemma round_half_even_error (x : Q) :
  x - (1 # 2) <= inject_Z (round_half_even x)
  /\ inject_Z (round_half_even x) <= x + (1 # 2).
Proof.
  pose proof (floor_bounds x) as [Hl Hu].
  destruct (round_half_even_cases x) as [[H E] | [[H E] | [H [[E | E] _]]]];
    rewrite E; try rewrite inject_Z_plus;
    change (inject_Z 1) with 1; lra.
Qed.

Lemma round_half_even_floor (x : Q) :
  (Qfloor x <= round_half_even x <= Qfloor x + 1)%Z.
Proof.
  destruct (round_half_even_cases x) as [[_ E] | [[_ E] | [_ [[E | E] _]]]];
    rewrite E; lia.
Qed.

Lemma round_half_even_mono (x y : Q) :
  x <= y -> (round_half_even x <= round_half_even y)%Z.
Proof.
  intros Hxy.
  pose proof (Qfloor_resp_le _ _ Hxy) as Hf.
  pose proof (round_half_even_floor x) as Hx.
  pose proof (round_half_even_floor y) as Hy.
  destruct (Z.eq_dec (Qfloor x) (Qfloor y)) as [Heq | Hne]; [| lia].
  destruct (round_half_even_cases x) as [[Hx1 Ex] | [[Hx1 Ex] | [Hx1 [Ex Evx]]]];
    destruct (round_half_even_cases y) as [[Hy1 Ey] | [[Hy1 Ey] | [Hy1 [Ey Evy]]]];
    rewrite <- ?Heq in *; try lia; try lra.
  destruct Ex as [Ex | Ex], Ey as [Ey | Ey]; try lia.
  rewrite Ex in Evx. rewrite Ey in Evy.
  rewrite Z.even_add in Evx. rewrite Evy in Evx. discriminate Evx.
Qed.

Lemma round_half_even_inject (k : Z) : round_half_even (inject_Z k) = k.
Proof.
  unfold round_half_even. rewrite Qfloor_Z.
  destruct (Qcompare_spec (inject_Z k - inject_Z k) (1 # 2)) as [E | L | G];
    try reflexivity; lra.
Qed.

Lemma round_half_even_nonneg (x : Q) :
  0 <= x -> (0 <= round_half_even x)%Z.
Proof.
  intros H. apply round_half_even_mono in H.
  change 0 with (inject_Z 0) in H. rewrite round_half_even_inject in H.
  exact H.
Qed.

(** The rounded value is positive exactly above one half. *)
Lemma round_half_even_pos (x : Q) :
  (0 < round_half_even x)%Z <-> 1 # 2 < x.
Proof.
  split.
  - intros H.
    destruct (Qlt_le_dec (1 # 2) x) as [Hlt | Hle]; [exact Hlt |].
    exfalso.
    apply round_half_even_mono in Hle.
    assert (round_half_even (1 # 2) = 0%Z) by reflexivity. lia.
  - intros H. pose proof (round_half_even_error x) as [Hl _].
    apply Z.lt_nge. intros Hn.
    assert (inject_Z (round_half_even x) <= 0).
    { change 0 with (inject_Z 0). rewrite <- Zle_Qle. exact Hn. }
    lra.
Qed.

Lemma round2_mono (x y : Q) : x <= y -> round2 x <= round2 y.
Proof.
  intros H. unfold round2. unfold Qle. simpl.
  apply Z.mul_le_mono_nonneg_r; [lia |].
  apply round_half_even_mono. lra.
Qed.

Lemma round2_nonneg (x : Q) : 0 <= x -> 0 <= round2 x.
Proof.
  intros H. assert (H100 : 0 <= x * 100) by lra.
  apply round_half_even_nonneg in H100.
  unfold round2, Qle. simpl. lia.
Qed.

Lemma round2_pos (x : Q) : 0 < round2 x <-> 1 # 200 < x.
Proof.
  transitivity (0 < round_half_even (x * 100))%Z.
  - unfold round2, Qlt. simpl. lia.
  - rewrite round_half_even_pos. split; intros H; lra.
Qed.

Lemma round_half_even_ext (x y : Q) :
  x == y -> round_half_even x = round_half_even y.
Proof.
  intros H. apply Z.le_antisymm; apply round_half_even_mono; lra.
Qed.

Lemma round2_ext (x y : Q) : x == y -> round2 x = round2 y.
Proof.
  intros H. unfold round2. f_equal. apply round_half_even_ext. lra.
Qed.

(** Rounding twice a number against twice its rounding: at most one
    unit apart. *)
Lemma round_half_even_double (a : Q) :
  (-1 <= round_half_even (2 * a) - 2 * round_half_even a <= 1)%Z.
Proof.
  pose proof (round_half_even_error a) as [Hl Hu].
  pose proof (round_half_even_error (2 * a)) as [Hl2 Hu2].
  assert (Hlo : (2 * round_half_even a < round_half_even (2 * a) + 2)%Z).
  { rewrite Zlt_Qlt, inject_Z_plus, inject_Z_mult.
    change (inject_Z 2) with 2. lra. }
  assert (Hhi : (round_half_even (2 * a) < 2 * round_half_even a + 2)%Z).
  { rewrite Zlt_Qlt, inject_Z_plus, inject_Z_mult.
    change (inject_Z 2) with 2. lra. }
  lia.
Qed.

(** [round(x, 2)] is a whole number of hundredths. *)
Lemma round2_hundredths (x : Q) :
  round2 x == inject_Z (round_half_even (x * 100)) / 100.
Proof.
  unfold round2. set (n := round_half_even (x * 100)).
  unfold Qeq, Qdiv, Qmult, Qinv, inject_Z. simpl. lia.
Qed.

End RoundFacts.

(** ** Properties of the pricing engine *)

Module PricingFacts.

Import Py PyFacts RoundFacts PricingEngine Examples.

(** C4: the recommended infill is 25 when the largest bounding-box
    extent is above 200 or the score is at least 7, and 20 otherwise; it
    takes no other value. *)
Theorem recommended_infill (complexity_score : Z) (bounding_box : Q * Q * Q) :
  let infill :=
    infill_percentage (get_recommended_settings complexity_score bounding_box) in
  ((200 < max3 bounding_box)%Q \/ 7 <= complexity_score -> infill = 25)
  /\ (~ ((200 < max3 bounding_box)%Q \/ 7 <= complexity_score) -> infill = 20)
  /\ (infill = 25 \/ infill = 20).
Proof.
  destruct bounding_box as [[x y] z].
  unfold get_recommended_settings. cbn [infill_percentage].
  destruct (gt_reflect (max3 (x, y, z)) 200) as [Hg | Hg];
    destruct (Z.geb_spec complexity_score 7) as [Hs | Hs]; cbn.
  all: split; [| split]; auto; intros H; try reflexivity.
  - exfalso. apply H. left. exact Hg.
  - exfalso. apply H. left. exact Hg.
  - exfalso. apply H. right. exact Hs.
  - exfalso. destruct H as [H | H]; [contradiction | lia].
Qed.

Lemma recommended_infill_witness :
  infill_percentage (get_recommended_settings 8 (50, 30, 20)%Q) = 25
  /\ infill_percentage (get_recommended_settings 3 (250, 30, 20)%Q) = 25
  /\ infill_percentage (get_recommended_settings 6 (200, 30, 20)%Q) = 20.
Proof.
  split; [| split].
  - apply (proj1 (recommended_infill 8 (50, 30, 20)%Q)). right. lia.
  - apply (proj1 (recommended_infill 3 (250, 30, 20)%Q)). left. qcompute.
  - apply (proj1 (proj2 (recommended_infill 6 (200, 30, 20)%Q))).
    intros [H | H]; [vm_compute in H; discriminate H | lia].
Defined.

Local Open Scope Q_scope.

(** *** The full pricing of one part

    The only step of [calculate_full_pricing] that can raise is the
    division by the configured print speed. *)
Section FullPricing.

Variable self : Engine.
Hypothesis print_speed_not_zero : ~ fdm_print_speed self == 0.

Variables (volume_cm3 : Q) (complexity_score : Z).
Variables (bounding_box : Q * Q * Q) (material : string).

Lemma estimate_print_time_ok (i : Z) :
  estimate_print_time self volume_cm3 complexity_score i
  = Ok (round2 (volume_cm3 / fdm_print_speed self
                * (1.0 + inject_Z complexity_score / 10.0)
                * (0.8 + inject_Z i / 100.0 * 0.4))).
Proof.
  unfold estimate_print_time.
  rewrite (truediv_ok _ _ print_speed_not_zero). reflexivity.
Qed.

(** C5: called without an explicit infill, [calculate_full_pricing]
    returns a result whose mass, cost and print time are the ones
    [calculate_mass], [calculate_material_cost] and [estimate_print_time]
    give for the infill that the returned [recommended_settings] report.
    (The call returns whenever the configured print speed is not zero.) *)
Theorem default_infill_is_recommended :
  exists r,
    calculate_full_pricing self volume_cm3 complexity_score bounding_box
      material None = Ok r
    /\ mass_g r
       = calculate_mass self volume_cm3 material
           (infill_percentage (recommended_settings r))
    /\ material_cost_usd r
       = calculate_material_cost self
           (calculate_mass self volume_cm3 material
              (infill_percentage (recommended_settings r))) material
    /\ Ok (est_print_time_hours r)
       = estimate_print_time self volume_cm3 complexity_score
           (infill_percentage (recommended_settings r)).
Proof.
  unfold calculate_full_pricing.
  rewrite estimate_print_time_ok. cbn [bind].
  eexists. split; [reflexivity |].
  cbn [mass_g material_cost_usd est_print_time_hours recommended_settings].
  rewrite estimate_print_time_ok. repeat split.
Qed.

(** C10: the [recommended_settings] of the result depend on the score
    and the bounding box only.  Two calls that differ in the
    [infill_percentage] argument alone both return
    [get_recommended_settings complexity_score bounding_box], and with
    an explicit infill [i] the mass, cost and print time are the ones
    for [i], whatever infill the settings report.  (The calls return
    whenever the configured print speed is not zero.) *)
Theorem settings_ignore_explicit_infill (infill1 infill2 : option Z) :
  exists r1 r2,
    calculate_full_pricing self volume_cm3 complexity_score bounding_box
      material infill1 = Ok r1
    /\ calculate_full_pricing self volume_cm3 complexity_score bounding_box
         material infill2 = Ok r2
    /\ recommended_settings r1 = recommended_settings r2
    /\ recommended_settings r1
       = get_recommended_settings complexity_score bounding_box
    /\ forall i, infill1 = Some i ->
         mass_g r1 = calculate_mass self volume_cm3 material i
         /\ material_cost_usd r1
            = calculate_material_cost self
                (calculate_mass self volume_cm3 material i) material
         /\ Ok (est_print_time_hours r1)
            = estimate_print_time self volume_cm3 complexity_score i.
Proof.
  unfold calculate_full_pricing.
  rewrite !estimate_print_time_ok. cbn [bind].
  do 2 eexists. split; [reflexivity |]. split; [reflexivity |].
  cbn [mass_g material_cost_usd est_print_time_hours recommended_settings].
  split; [reflexivity |]. split; [reflexivity |].
  intros i ->. rewrite estimate_print_time_ok. repeat split.
Qed.

End FullPricing.

Lemma default_infill_is_recommended_witness :
  exists r,
    calculate_full_pricing pricing_engine 45.2 6 (120.5, 45.3, 30.2) "PLA"
      None = Ok r
    /\ mass_g r
       = calculate_mass pricing_engine 45.2 "PLA"
           (infill_percentage (recommended_settings r))
    /\ material_cost_usd r
       = calculate_material_cost pricing_engine
           (calculate_mass pricing_engine 45.2 "PLA"
              (infill_percentage (recommended_settings r))) "PLA"
    /\ Ok (est_print_time_hours r)
       = estimate_print_time pricing_engine 45.2 6
           (infill_percentage (recommended_settings r)).
Proof.
  apply (default_infill_is_recommended pricing_engine). qcompute.
Defined.

Lemma settings_ignore_explicit_infill_witness :
  exists r1 r2,
    calculate_full_pricing pricing_engine 45.2 6 (120.5, 45.3, 30.2) "PLA"
      (Some 100%Z) = Ok r1
    /\ calculate_full_pricing pricing_engine 45.2 6 (120.5, 45.3, 30.2)
         "PLA" None = Ok r2
    /\ recommended_settings r1 = recommended_settings r2
    /\ recommended_settings r1
       = get_recommended_settings 6 (120.5, 45.3, 30.2)
    /\ forall i, Some 100%Z = Some i ->
         mass_g r1 = calculate_mass pricing_engine 45.2 "PLA" i
         /\ material_cost_usd r1
            = calculate_material_cost pricing_engine
                (calculate_mass pricing_engine 45.2 "PLA" i) "PLA"
         /\ Ok (est_print_time_hours r1)
            = estimate_print_time pricing_engine 45.2 6 i.
Proof.
  apply (settings_ignore_explicit_infill pricing_engine). qcompute.
Defined.

(** With an explicit infill of 100 the settings still report 20, while
    the mass is the one for 100. *)
Example explicit_infill_differs :
  exists r1 r2,
    calculate_full_pricing pricing_engine 45.2 6 (120.5, 45.3, 30.2) "PLA"
      (Some 100%Z) = Ok r1
    /\ calculate_full_pricing pricing_engine 45.2 6 (120.5, 45.3, 30.2)
         "PLA" None = Ok r2
    /\ infill_percentage (recommended_settings r1) = 20%Z
    /\ mass_g r1 = 56.05 /\ mass_g r2 = 24.66.
Proof. do 2 eexists. repeat split. Qed.

(** C6 as stated fails: for PLA at 20 % infill, 1 cm3 weighs 0.55 g and
    2 cm3 weigh 1.09 g, not 1.10 g. *)
Lemma mass_not_doubled :
  0 <= 1
  /\ calculate_mass pricing_engine 1 "PLA" 20 == 0.55
  /\ calculate_mass pricing_engine (2 * 1) "PLA" 20 == 1.09
  /\ ~ calculate_mass pricing_engine (2 * 1) "PLA" 20
        == 2 * calculate_mass pricing_engine 1 "PLA" 20.
Proof.
  split; [discriminate |]. split; [reflexivity |]. split; [reflexivity |].
  intros H. vm_compute in H. discriminate H.
Qed.

(** C6, amended: for fixed material and infill the mass is the rounding
    to two decimals of a multiple of the volume, so doubling the volume
    doubles the mass up to that rounding.  Counted in hundredths of a
    gram: the two masses are the two-decimal numbers [n1 / 100] and
    [n2 / 100] for whole numbers [n1] and [n2], and [n2] is [2 * n1 - 1],
    [2 * n1] or [2 * n1 + 1].  The statement is for masses up to 10^9 g,
    where a hundredth of a gram is far above the resolution of a float
    and the result is finite. *)
Theorem mass_doubling (self : Engine) (volume_cm3 : Q) (material : string)
    (infill : Z) :
  Qabs (calculate_mass self (2 * volume_cm3) material infill)
  <= 1000000000 ->
  exists n1 n2 : Z,
    calculate_mass self volume_cm3 material infill == inject_Z n1 / 100
    /\ calculate_mass self (2 * volume_cm3) material infill
       == inject_Z n2 / 100
    /\ (-1 <= n2 - 2 * n1 <= 1)%Z.
Proof.
  intros _. unfold calculate_mass.
  set (k := _ * (0.3 + 0.7 * (inject_Z infill / 100))).
  exists (round_half_even (volume_cm3 * k * 100)),
         (round_half_even (2 * volume_cm3 * k * 100)).
  split; [apply round2_hundredths |]. split; [apply round2_hundredths |].
  rewrite (round_half_even_ext (2 * volume_cm3 * k * 100)
             (2 * (volume_cm3 * k * 100))) by lra.
  apply round_half_even_double.
Qed.

Lemma mass_doubling_witness :
  exists n1 n2 : Z,
    calculate_mass pricing_engine 1 "PLA" 20 == inject_Z n1 / 100
    /\ calculate_mass pricing_engine (2 * 1) "PLA" 20 == inject_Z n2 / 100
    /\ (-1 <= n2 - 2 * n1 <= 1)%Z.
Proof.
  apply (mass_doubling pricing_engine 1 "PLA" 20). qcompute.
Defined.

(** C7 as stated fails: a part of 0.01 cm3 prints in 0.00 h at score 0
    and at score 10, and at 20 % and at 100 % infill. *)
Lemma print_time_not_strict :
  estimate_print_time pricing_engine 0.01 0 20 = Ok 0.00
  /\ estimate_print_time pricing_engine 0.01 10 20 = Ok 0.00
  /\ estimate_print_time pricing_engine 0.01 5 20 = Ok 0.00
  /\ estimate_print_time pricing_engine 0.01 5 100 = Ok 0.00
  /\ ~ 0.00 < 0.00.
Proof.
  repeat split. intros H. vm_compute in H. discriminate H.
Qed.

(** C7, amended: for a volume, a score and an infill that are not
    negative and a positive configured print speed, the estimated print
    time does not decrease when the score or the infill grows. *)
Theorem print_time_monotone (self : Engine) (volume_cm3 : Q)
    (score1 score2 infill1 infill2 : Z) :
  0 < fdm_print_speed self ->
  0 <= volume_cm3 ->
  (0 <= score1 <= score2)%Z ->
  (0 <= infill1 <= infill2)%Z ->
  exists t1 t2,
    estimate_print_time self volume_cm3 score1 infill1 = Ok t1
    /\ estimate_print_time self volume_cm3 score2 infill2 = Ok t2
    /\ t1 <= t2.
Proof.
  intros Hsp Hv [Hs0 Hs] [Hi0 Hi].
  assert (Hne : ~ fdm_print_speed self == 0) by lra.
  rewrite !(estimate_print_time_ok _ Hne).
  do 2 eexists. split; [reflexivity |]. split; [reflexivity |].
  apply round2_mono.
  assert (Hb : 0 <= volume_cm3 / fdm_print_speed self).
  { apply Qle_shift_div_l; lra. }
  set (b := volume_cm3 / fdm_print_speed self) in *.
  rewrite Zle_Qle in Hs0, Hs, Hi0, Hi. change (inject_Z 0) with 0 in *.
  set (s1 := inject_Z score1) in *. set (s2 := inject_Z score2) in *.
  set (i1 := inject_Z infill1) in *. set (i2 := inject_Z infill2) in *.
  unfold Qdiv.
  change (/ 10.0) with (10 # 100). change (/ 100.0) with (10 # 1000).
  assert (Hc1 : 0 <= 1.0 + s1 * (10 # 100) <= 1.0 + s2 * (10 # 100)) by lra.
  assert (Hc2 : 0 <= 0.8 + i1 * (10 # 1000) * 0.4
                <= 0.8 + i2 * (10 # 1000) * 0.4) by lra.
  set (c1 := 1.0 + s1 * (10 # 100)) in *.
  set (c2 := 1.0 + s2 * (10 # 100)) in *.
  set (m1 := 0.8 + i1 * (10 # 1000) * 0.4) in *.
  set (m2 := 0.8 + i2 * (10 # 1000) * 0.4) in *.
  clearbody b c1 c2 m1 m2.
  apply Qle_trans with (b * c2 * m1).
  - apply Qmult_le_compat_r; [| lra].
    rewrite !(Qmult_comm b). apply Qmult_le_compat_r; lra.
  - rewrite !(Qmult_comm (b * c2)). apply Qmult_le_compat_r; [lra |].
    apply Qmult_le_0_compat; lra.
Qed.

Lemma print_time_monotone_witness :
  exists t1 t2,
    estimate_print_time pricing_engine 45.2 3 20 = Ok t1
    /\ estimate_print_time pricing_engine 45.2 6 25 = Ok t2
    /\ t1 <= t2.
Proof.
  apply (print_time_monotone pricing_engine 45.2 3 6 20 25).
  - qcompute.
  - qcompute.
  - lia.
  - lia.
Defined.

(** C8 as stated fails in its last part: "Resin" is not in the table and
    0.001 cm3 is a positive volume, but the mass rounds to 0.00 g and the
    cost is 0.00, which is not positive. *)
Lemma unknown_material_cost_zero :
  materials pricing_engine !! "Resin" = None
  /\ 0 < 0.001
  /\ calculate_mass pricing_engine 0.001 "Resin" 20 == 0
  /\ ~ 0 < calculate_material_cost pricing_engine
            (calculate_mass pricing_engine 0.001 "Resin" 20) "Resin".
Proof.
  split; [reflexivity |]. split; [reflexivity |]. split; [reflexivity |].
  intros H. vm_compute in H. discriminate H.
Qed.

(** C8, amended: for a material name that is not in the table,
    [calculate_mass] and [calculate_material_cost] return the values
    computed from the configured default density and default cost per
    gram.  When the volume, the infill and the two defaults are not
    negative the resulting cost is not negative, and it is positive
    whenever the mass times the default cost per gram exceeds 0.005. *)
Theorem unknown_material_fallback (self : Engine) (material : string)
    (volume_cm3 mass : Q) (infill : Z) :
  materials self !! material = None ->
  calculate_mass self volume_cm3 material infill
  = round2 (volume_cm3
            * (default_density self * (0.3 + 0.7 * (inject_Z infill / 100))))
  /\ calculate_material_cost self mass material
     = round2 (mass * default_cost_per_gram self)
  /\ (0 <= volume_cm3 -> (0 <= infill)%Z ->
      0 <= default_density self -> 0 <= default_cost_per_gram self ->
      0 <= calculate_material_cost self
             (calculate_mass self volume_cm3 material infill) material)
  /\ (0.005 < calculate_mass self volume_cm3 material infill
              * default_cost_per_gram self ->
      0 < calculate_material_cost self
            (calculate_mass self volume_cm3 material infill) material).
Proof.
  intros Hm. unfold calculate_mass, calculate_material_cost.
  rewrite Hm. split; [reflexivity |]. split; [reflexivity |]. split.
  - intros Hv Hi Hd Hc. rewrite Zle_Qle in Hi. change (inject_Z 0) with 0 in Hi.
    apply round2_nonneg. apply Qmult_le_0_compat; [| exact Hc].
    apply round2_nonneg. apply Qmult_le_0_compat; [exact Hv |].
    apply Qmult_le_0_compat; [exact Hd |].
    unfold Qdiv. change (/ 100) with (1 # 100). lra.
  - intros H. apply round2_pos. lra.
Qed.

Lemma unknown_material_fallback_witness :
  materials pricing_engine !! "Resin" = None
  /\ calculate_mass pricing_engine 45.2 "Resin" 20
     = round2 (45.2 * (default_density pricing_engine
                       * (0.3 + 0.7 * (inject_Z 20 / 100))))
  /\ calculate_material_cost pricing_engine 24.66 "Resin"
     = round2 (24.66 * default_cost_per_gram pricing_engine)
  /\ 0 <= calculate_material_cost pricing_engine
            (calculate_mass pricing_engine 45.2 "Resin" 20) "Resin"
  /\ 0 < calculate_material_cost pricing_engine
           (calculate_mass pricing_engine 45.2 "Resin" 20) "Resin".
Proof.
  split; [reflexivity |].
  destruct (unknown_material_fallback pricing_engine "Resin" 45.2 24.66 20
              eq_refl) as (Hmass & Hcost & Hnonneg & Hpos).
  split; [exact Hmass |]. split; [exact Hcost |]. split.
  - apply Hnonneg; [qcompute | lia | qcompute | qcompute].
  - apply Hpos. qcompute.
Defined.

End PricingFacts.

(** ** Further properties of the pricing engine *)

Module PricingMore.

Import Py PyFacts RoundFacts PricingEngine.

Local Open Scope Q_scope.

(** The six entries of the material table, whatever the environment. *)
Lemma table_entries (env : Env) (material : string) (p : Material) :
  materials (init env) !! material = Some p ->
  (material, p) ∈
    [ ("PLA",   {| density := 1.24; cost_per_gram := 0.02 |});
      ("ABS",   {| density := 1.04; cost_per_gram := 0.025 |});
      ("PETG",  {| density := 1.27; cost_per_gram := 0.03 |});
      ("TPU",   {| density := 1.21; cost_per_gram := 0.05 |});
      ("Nylon", {| density := 1.14; cost_per_gram := 0.06 |});
      ("ASA",   {| density := 1.07; cost_per_gram := 0.035 |}) ].
Proof.
  intros H. apply elem_of_list_to_map_2. exact H.
Qed.

Lemma table_positive (env : Env) (material : string) (p : Material) :
  materials (init env) !! material = Some p ->
  0 < density p /\ 0 < cost_per_gram p.
Proof.
  intros H. apply table_entries in H.
  repeat (apply elem_of_cons in H; destruct H as [H | H];
          [injection H as -> ->; split; reflexivity |]).
  apply elem_of_nil in H. contradiction.
Qed.

(** The density and the cost per gram a material name resolves to. *)
Lemma resolved_nonneg (env : Env) (material : string) :
  0 <= default_density (init env) ->
  0 <= default_cost_per_gram (init env) ->
  0 <= match materials (init env) !! material with
       | Some m => density m
       | None => default_density (init env)
       end
  /\ 0 <= match materials (init env) !! material with
          | Some m => cost_per_gram m
          | None => default_cost_per_gram (init env)
          end.
Proof.
  intros Hd Hc.
  destruct (materials (init env) !! material) as [p |] eqn:E.
  - apply table_positive in E. destruct E. split; lra.
  - split; assumption.
Qed.

(** The effective-density factor grows with the infill. *)
Lemma infill_factor_mono (i1 i2 : Z) :
  (0 <= i1 <= i2)%Z ->
  0 <= 0.3 + 0.7 * (inject_Z i1 / 100)
  /\ 0.3 + 0.7 * (inject_Z i1 / 100) <= 0.3 + 0.7 * (inject_Z i2 / 100).
Proof.
  intros [H0 H]. rewrite Zle_Qle in H0, H. change (inject_Z 0) with 0 in H0.
  unfold Qdiv. change (/ 100) with (1 # 100). split; lra.
Qed.

Lemma Qmult_le_mono (a b c d : Q) :
  0 <= a -> a <= b -> 0 <= c -> c <= d -> a * c <= b * d.
Proof.
  intros Ha Hab Hc Hcd.
  apply Qle_trans with (b * c).
  - apply Qmult_le_compat_r; assumption.
  - rewrite !(Qmult_comm b). apply Qmult_le_compat_r; lra.
Qed.

(** For an engine built by [__init__] with a default density that is not
    negative, the mass is never negative and never decreases when the
    volume or the infill grows, for table materials and unknown ones
    alike. *)
Theorem calculate_mass_monotone (env : Env) (material : string)
    (v1 v2 : Q) (i1 i2 : Z) :
  0 <= default_density (init env) ->
  0 <= v1 -> v1 <= v2 ->
  (0 <= i1 <= i2)%Z ->
  0 <= calculate_mass (init env) v1 material i1
  /\ calculate_mass (init env) v1 material i1
     <= calculate_mass (init env) v2 material i2.
Proof.
  intros Hd Hv1 Hv Hi.
  unfold calculate_mass.
  assert (Hden : 0 <= match materials (init env) !! material with
                      | Some m => density m
                      | None => default_density (init env)
                      end).
  { destruct (materials (init env) !! material) as [p |] eqn:E;
      [apply table_positive in E; destruct E; lra | exact Hd]. }
  set (d := match materials (init env) !! material with
            | Some m => density m
            | None => default_density (init env)
            end) in *.
  clearbody d.
  destruct (infill_factor_mono i1 i2 Hi) as [Hf0 Hf].
  assert (He : 0 <= d * (0.3 + 0.7 * (inject_Z i1 / 100))).
  { apply Qmult_le_0_compat; assumption. }
  split.
  - apply round2_nonneg. apply Qmult_le_0_compat; assumption.
  - apply round2_mono. apply Qmult_le_mono; try assumption.
    rewrite !(Qmult_comm d). apply Qmult_le_compat_r; assumption.
Qed.

Lemma calculate_mass_monotone_witness :
  0 <= calculate_mass (init env_unset) 10 "PETG" 20
  /\ calculate_mass (init env_unset) 10 "PETG" 20
     <= calculate_mass (init env_unset) 12.5 "PETG" 35.
Proof.
  apply (calculate_mass_monotone env_unset "PETG" 10 12.5 20 35);
    first [qcompute | lia].
Defined.

(** With a score in 0..10 and an infill in 0..100 the complexity
    multiplier lies in 1..2 and the infill multiplier in 0.8..1.2, so the
    estimate stays within a fixed band around the base time
    [volume / print speed]: it is never below three quarters of it nor
    above two and a half times it, each rounded to two decimals.  The
    band is a little wider than the product of the multipliers, 0.8 to
    2.4, so that it does not depend on how a product that falls on a
    rounding tie is rounded. *)
Theorem print_time_bounds (self : Engine) (volume_cm3 : Q)
    (complexity_score infill : Z) :
  0 < fdm_print_speed self ->
  0 <= volume_cm3 ->
  (0 <= complexity_score <= 10)%Z ->
  (0 <= infill <= 100)%Z ->
  exists t,
    estimate_print_time self volume_cm3 complexity_score infill = Ok t
    /\ round2 (0.75 * (volume_cm3 / fdm_print_speed self)) <= t
    /\ t <= round2 (2.5 * (volume_cm3 / fdm_print_speed self)).
Proof.
  intros Hsp Hv [Hs0 Hs1] [Hi0 Hi1].
  assert (Hne : ~ fdm_print_speed self == 0) by lra.
  unfold estimate_print_time. rewrite (truediv_ok _ _ Hne). cbn [bind].
  eexists. split; [reflexivity |].
  assert (Hb : 0 <= volume_cm3 / fdm_print_speed self).
  { apply Qle_shift_div_l; lra. }
  set (b := volume_cm3 / fdm_print_speed self) in *. clearbody b.
  rewrite Zle_Qle in Hs0, Hs1, Hi0, Hi1.
  change (inject_Z 0) with 0 in *. change (inject_Z 10) with 10 in *.
  change (inject_Z 100) with 100 in *.
  set (s := inject_Z complexity_score) in *.
  set (i := inject_Z infill) in *. clearbody s i.
  unfold Qdiv.
  change (/ 10.0) with (10 # 100). change (/ 100.0) with (10 # 1000).
  assert (Hc : 1 <= 1.0 + s * (10 # 100) <= 2) by lra.
  assert (Hm : 0.8 <= 0.8 + i * (10 # 1000) * 0.4 <= 1.2) by lra.
  set (c := 1.0 + s * (10 # 100)) in *.
  set (m := 0.8 + i * (10 # 1000) * 0.4) in *. clearbody c m.
  split; apply round2_mono.
  - apply Qle_trans with (b * 1 * 0.8); [lra |].
    apply Qmult_le_mono; try lra.
    rewrite !(Qmult_comm b). apply Qmult_le_compat_r; lra.
  - apply Qle_trans with (b * 2 * 1.2); [| lra].
    apply Qmult_le_mono; try lra.
    + apply Qmult_le_0_compat; lra.
    + rewrite !(Qmult_comm b). apply Qmult_le_compat_r; lra.
Qed.

Lemma print_time_bounds_witness :
  exists t,
    estimate_print_time pricing_engine 45.2 6 20 = Ok t
    /\ round2 (0.75 * (45.2 / fdm_print_speed pricing_engine)) <= t
    /\ t <= round2 (2.5 * (45.2 / fdm_print_speed pricing_engine)).
Proof.
  apply (print_time_bounds pricing_engine 45.2 6 20);
    first [qcompute | lia].
Defined.

Lemma round_half_even_Z (n : Z) (x : Q) :
  x == inject_Z n -> round_half_even x = n.
Proof.
  intros H. rewrite (round_half_even_ext _ _ H).
  apply round_half_even_inject.
Qed.

(** A value with two decimals is left alone by [round(., 2)]. *)
Lemma round2_idempotent (x : Q) : round2 (round2 x) = round2 x.
Proof.
  unfold round2 at 1 3. f_equal. apply round_half_even_Z.
  unfold round2, Qeq, Qmult, inject_Z. simpl. lia.
Qed.

(** Mass, cost and print time come out with two decimals: rounding any
    of them to two decimals again changes nothing. *)
Theorem pricing_outputs_two_decimals (self : Engine) (volume_cm3 mass : Q)
    (material : string) (complexity_score infill : Z) :
  round2 (calculate_mass self volume_cm3 material infill)
  = calculate_mass self volume_cm3 material infill
  /\ round2 (calculate_material_cost self mass material)
     = calculate_material_cost self mass material
  /\ forall t,
       estimate_print_time self volume_cm3 complexity_score infill = Ok t ->
       round2 t = t.
Proof.
  split; [| split].
  - apply round2_idempotent.
  - apply round2_idempotent.
  - intros t. unfold estimate_print_time.
    destruct (truediv volume_cm3 (fdm_print_speed self)); cbn [bind];
      [| discriminate].
    intros [= <-]. apply round2_idempotent.
Qed.

(** With no environment override, a material name that is not in the
    table is priced exactly as PLA: same mass and same cost. *)
Theorem unknown_material_priced_as_PLA (material : string)
    (volume_cm3 mass : Q) (infill : Z) :
  materials pricing_engine !! material = None ->
  calculate_mass pricing_engine volume_cm3 material infill
  = calculate_mass pricing_engine volume_cm3 "PLA" infill
  /\ calculate_material_cost pricing_engine mass material
     = calculate_material_cost pricing_engine mass "PLA".
Proof.
  intros H. unfold calculate_mass, calculate_material_cost.
  rewrite H.
  replace (materials pricing_engine !! "PLA")
    with (Some {| density := 1.24; cost_per_gram := 0.02 |})
    by reflexivity.
  split; reflexivity.
Qed.

Lemma unknown_material_priced_as_PLA_witness :
  calculate_mass pricing_engine 45.2 "Resin" 20
  = calculate_mass pricing_engine 45.2 "PLA" 20
  /\ calculate_material_cost pricing_engine 24.66 "Resin"
     = calculate_material_cost pricing_engine 24.66 "PLA".
Proof.
  apply (unknown_material_priced_as_PLA "Resin" 45.2 24.66 20). reflexivity.
Defined.

(** For an engine built by [__init__] with defaults that are not negative
    and a positive print speed, a part of non-negative volume and score,
    priced with the recommended infill or an explicit non-negative one,
    gets a mass, a cost and a print time that are not negative. *)
Theorem full_pricing_nonneg (env : Env) (volume_cm3 : Q)
    (complexity_score : Z) (bounding_box : Q * Q * Q) (material : string)
    (infill : option Z) :
  0 <= default_density (init env) ->
  0 <= default_cost_per_gram (init env) ->
  0 < fdm_print_speed (init env) ->
  0 <= volume_cm3 ->
  (0 <= complexity_score)%Z ->
  (forall i, infill = Some i -> (0 <= i)%Z) ->
  exists r,
    calculate_full_pricing (init env) volume_cm3 complexity_score
      bounding_box material infill = Ok r
    /\ 0 <= mass_g r /\ 0 <= material_cost_usd r
    /\ 0 <= est_print_time_hours r.
Proof.
  intros Hd Hc Hsp Hv Hs Hi.
  assert (Hne : ~ fdm_print_speed (init env) == 0) by lra.
  unfold calculate_full_pricing, estimate_print_time.
  rewrite (truediv_ok _ _ Hne). cbn [bind].
  eexists. split; [reflexivity |].
  cbn [mass_g material_cost_usd est_print_time_hours].
  set (i := match infill with
            | Some i => i
            | None => infill_percentage
                        (get_recommended_settings complexity_score bounding_box)
            end).
  assert (Hi0 : (0 <= i)%Z).
  { subst i. destruct infill as [i |]; [apply Hi; reflexivity |].
    destruct bounding_box as [[x y] z].
    unfold get_recommended_settings. cbn [infill_percentage].
    destruct (gt (max3 (x, y, z)) 200 || (complexity_score >=? 7)%Z); lia. }
  clearbody i.
  destruct (resolved_nonneg env material Hd Hc) as [Hden Hcpg].
  assert (Hmass : 0 <= calculate_mass (init env) volume_cm3 material i).
  { unfold calculate_mass. apply round2_nonneg.
    apply Qmult_le_0_compat; [exact Hv |].
    apply Qmult_le_0_compat; [exact Hden |].
    apply (infill_factor_mono i i). lia. }
  split; [exact Hmass |]. split.
  - unfold calculate_material_cost. apply round2_nonneg.
    apply Qmult_le_0_compat; assumption.
  - apply round2_nonneg.
    rewrite Zle_Qle in Hs, Hi0. change (inject_Z 0) with 0 in *.
    assert (0 <= volume_cm3 / fdm_print_speed (init env)).
    { apply Qle_shift_div_l; lra. }
    set (b := volume_cm3 / fdm_print_speed (init env)) in *. clearbody b.
    unfold Qdiv.
    change (/ 10.0) with (10 # 100). change (/ 100.0) with (10 # 1000).
    repeat apply Qmult_le_0_compat; lra.
Qed.

Lemma full_pricing_nonneg_witness :
  exists r,
    calculate_full_pricing (init env_unset) 45.2 6 (120.5, 45.3, 30.2)
      "Resin" None = Ok r
    /\ 0 <= mass_g r /\ 0 <= material_cost_usd r
    /\ 0 <= est_print_time_hours r.
Proof.
  apply (full_pricing_nonneg env_unset 45.2 6 (120.5, 45.3, 30.2) "Resin" None);
    first [qcompute | lia | intros i H; discriminate H].
Defined.

(** A higher score never loosens the recommendation for the same part:
    the layer height does not grow, the infill does not shrink, the print
    speed does not grow, supports once needed stay needed, and the brim
    advice, which depends on the size only, is the same. *)
Theorem settings_monotone_in_score (score1 score2 : Z)
    (bounding_box : Q * Q * Q) :
  (score1 <= score2)%Z ->
  let a := get_recommended_settings score1 bounding_box in
  let b := get_recommended_settings score2 bounding_box in
  layer_height_mm b <= layer_height_mm a
  /\ (infill_percentage a <= infill_percentage b)%Z
  /\ (print_speed_mm_s b <= print_speed_mm_s a)%Z
  /\ (supports_needed a = true -> supports_needed b = true)
  /\ brim_recommended a = brim_recommended b.
Proof.
  intros H. destruct bounding_box as [[x y] z].
  unfold get_recommended_settings.
  cbn [layer_height_mm infill_percentage print_speed_mm_s supports_needed
       brim_recommended].
  destruct (gt (max3 (x, y, z)) 200), (gt (z / max (max x y) 1) 2);
    destruct (Z.geb_spec score1 7), (Z.geb_spec score2 7); try lia;
    destruct (Z.geb_spec score1 4), (Z.geb_spec score2 4); try lia;
    destruct (Z.geb_spec score1 6), (Z.geb_spec score2 6); try lia;
    cbn; repeat split; first [lia | qcompute | congruence | trivial].
Qed.

Lemma settings_monotone_in_score_witness :
  let a := get_recommended_settings 3 (120.5, 45.3, 30.2) in
  let b := get_recommended_settings 8 (120.5, 45.3, 30.2) in
  layer_height_mm b <= layer_height_mm a
  /\ (infill_percentage a <= infill_percentage b)%Z
  /\ (print_speed_mm_s b <= print_speed_mm_s a)%Z
  /\ (supports_needed a = true -> supports_needed b = true)
  /\ brim_recommended a = brim_recommended b.
Proof.
  apply (settings_monotone_in_score 3 8 (120.5, 45.3, 30.2)). lia.
Defined.

Lemma gt_weaken (a hi lo : Q) : lo <= hi -> gt a hi = true -> gt a lo = true.
Proof. rewrite !gt_lt. intros H1 H2. lra. Qed.

(** The fields of one recommendation agree with each other: the finest
    layer height comes with 25 % infill, supports and the slow speed; the
    slow speed comes with supports; 25 % infill comes with a brim or with
    the finest layer height; and the values are among 0.12, 0.16, 0.20 mm
    and 50, 60 mm/s. *)
Theorem settings_consistent (complexity_score : Z)
    (bounding_box : Q * Q * Q) :
  let r := get_recommended_settings complexity_score bounding_box in
  (layer_height_mm r = 0.12 ->
   infill_percentage r = 25%Z /\ supports_needed r = true
   /\ print_speed_mm_s r = 50%Z)
  /\ (print_speed_mm_s r = 50%Z -> supports_needed r = true)
  /\ (infill_percentage r = 25%Z ->
      brim_recommended r = true \/ layer_height_mm r = 0.12)
  /\ (layer_height_mm r = 0.12 \/ layer_height_mm r = 0.16
      \/ layer_height_mm r = 0.20)
  /\ (print_speed_mm_s r = 50%Z \/ print_speed_mm_s r = 60%Z).
Proof.
  destruct bounding_box as [[x y] z].
  unfold get_recommended_settings.
  cbn [layer_height_mm infill_percentage print_speed_mm_s supports_needed
       brim_recommended].
  destruct (gt (max3 (x, y, z)) 200) eqn:Hbig.
  - rewrite (gt_weaken _ 200 150) by (qcompute || exact Hbig).
    destruct (gt (z / max (max x y) 1) 2);
      destruct (Z.geb_spec complexity_score 7);
      destruct (Z.geb_spec complexity_score 4); try lia;
      destruct (Z.geb_spec complexity_score 6); try lia;
      cbn; repeat split; intros; auto; try discriminate; try lia.
  - destruct (gt (max3 (x, y, z)) 150), (gt (z / max (max x y) 1) 2);
      destruct (Z.geb_spec complexity_score 7);
      destruct (Z.geb_spec complexity_score 4); try lia;
      destruct (Z.geb_spec complexity_score 6); try lia;
      cbn; repeat split; intros; auto; try discriminate; try lia.
Qed.

End PricingMore.

(** ** Further properties of the complexity score *)

Module ScoreMore.

Import Py PyFacts ModelAnalyzer ScoreFacts.

Lemma tier_zero_iff (m hi lo : Q) :
  (lo <= hi)%Q -> (Reference.tier m hi lo = 0 <-> (m <= lo)%Q).
Proof.
  intros H. unfold Reference.tier.
  destruct (Qlt_le_dec hi m), (Qlt_le_dec lo m); split; intros; try lia; lra.
Qed.

Lemma tier_two_iff (m hi lo : Q) :
  Reference.tier m hi lo = 2 <-> (hi < m)%Q.
Proof.
  unfold Reference.tier.
  destruct (Qlt_le_dec hi m), (Qlt_le_dec lo m); split; intros; try lia; lra.
Qed.

Lemma shell_tier_zero_iff (n : N) :
  Reference.shell_tier n = 0 <-> (n <= 1)%N.
Proof.
  unfold Reference.shell_tier.
  destruct (N.ltb_spec 3 n), (N.ltb_spec 1 n); lia.
Qed.

Lemma shell_tier_two_iff (n : N) :
  Reference.shell_tier n = 2 <-> (3 < n)%N.
Proof.
  unfold Reference.shell_tier.
  destruct (N.ltb_spec 3 n), (N.ltb_spec 1 n); lia.
Qed.

(** The two ends of the scale: the score is 0 exactly when the mesh is
    watertight and no measure is above its lower threshold, and it is 10
    exactly when the mesh is not watertight and every measure is above
    its upper threshold. *)
Theorem score_extremes (mesh : Mesh) (g : Geometry) :
  (compute_complexity_score mesh g = 0
   <-> (tri_density mesh g <= 500)%Q /\ (split mesh <= 1)%N
       /\ (aspect_ratio g <= 5)%Q /\ is_watertight mesh = true
       /\ (sa_vol_ratio g <= 25)%Q)
  /\ (compute_complexity_score mesh g = 10
      <-> (1000 < tri_density mesh g)%Q /\ (3 < split mesh)%N
          /\ (10 < aspect_ratio g)%Q /\ is_watertight mesh = false
          /\ (50 < sa_vol_ratio g)%Q).
Proof.
  rewrite compute_uncapped, score_before_cap_sum.
  pose proof (tier_range (tri_density mesh g) 1000 500) as R1.
  pose proof (shell_tier_range (split mesh)) as R2.
  pose proof (tier_range (aspect_ratio g) 10 5) as R3.
  pose proof (tier_range (sa_vol_ratio g) 50 25) as R4.
  rewrite <- (tier_zero_iff (tri_density mesh g) 1000 500) by (vm_compute; discriminate).
  rewrite <- (tier_zero_iff (aspect_ratio g) 10 5) by (vm_compute; discriminate).
  rewrite <- (tier_zero_iff (sa_vol_ratio g) 50 25) by (vm_compute; discriminate).
  rewrite <- (tier_two_iff (tri_density mesh g) 1000 500).
  rewrite <- (tier_two_iff (aspect_ratio g) 10 5).
  rewrite <- (tier_two_iff (sa_vol_ratio g) 50 25).
  rewrite <- shell_tier_zero_iff, <- shell_tier_two_iff.
  unfold Reference.watertight_tier.
  destruct (is_watertight mesh);
    intuition (try lia; try discriminate; try reflexivity).
Qed.

(** A tier depends on the value of the measure only. *)
Lemma tier_ext (m m' hi lo : Q) :
  (m == m')%Q -> Reference.tier m hi lo = Reference.tier m' hi lo.
Proof.
  intros H. apply Z.le_antisymm; apply tier_mono; lra.
Qed.

(** Splits on every [Qmax] and [Qmin] in sight and leaves the linear
    arithmetic of each case to [lra]. *)
Ltac qminmax :=
  repeat match goal with
         | |- context [Qmax ?a ?b] =>
             let H := fresh "H" in
             pose proof (Q.max_spec a b) as H;
             generalize dependent (Qmax a b); intros
         | _ : context [Qmax ?a ?b] |- _ =>
             let H := fresh "H" in
             pose proof (Q.max_spec a b) as H;
             generalize dependent (Qmax a b); intros
         | |- context [Qmin ?a ?b] =>
             let H := fresh "H" in
             pose proof (Q.min_spec a b) as H;
             generalize dependent (Qmin a b); intros
         | _ : context [Qmin ?a ?b] |- _ =>
             let H := fresh "H" in
             pose proof (Q.min_spec a b) as H;
             generalize dependent (Qmin a b); intros
         end;
  repeat match goal with
         | H : _ \/ _ |- _ => destruct H as [[? ?] | [? ?]]
         end;
  lra.

(** Raising the three extents to a floor raises their largest and their
    smallest to it. *)
Lemma floor_max3 (x y z f : Q) :
  (Qmax (Qmax (Qmax x f) (Qmax y f)) (Qmax z f)
   == Qmax (Qmax (Qmax x y) z) f)%Q.
Proof. qminmax. Qed.

Lemma floor_min3 (x y z f : Q) :
  (Qmin (Qmin (Qmax x f) (Qmax y f)) (Qmax z f)
   == Qmax (Qmin (Qmin x y) z) f)%Q.
Proof. qminmax. Qed.

(** The guards [max(., 0.1)] make the score blind below the floor: a
    geometry scores the same as the one with its volume and each of its
    extents raised to at least 0.1.  A part of zero or negative volume is
    scored as one of 0.1 cm3, a flat part as one 0.1 mm thick. *)
Theorem guards_floor (mesh : Mesh) (g : Geometry) :
  compute_complexity_score mesh (with_floor g)
  = compute_complexity_score mesh g.
Proof.
  rewrite !compute_uncapped, !score_before_cap_sum.
  assert (Ht : (tri_density mesh (with_floor g) == tri_density mesh g)%Q).
  { unfold tri_density, with_floor.
    destruct (bounding_box g) as [[x y] z]. cbn [volume_cm3].
    rewrite !max_Qmax.
    assert (E : (Qmax (Qmax (volume_cm3 g) 0.1) 1
                 == Qmax (volume_cm3 g) 1)%Q) by qminmax.
    rewrite E. reflexivity. }
  assert (Hs : (sa_vol_ratio (with_floor g) == sa_vol_ratio g)%Q).
  { unfold sa_vol_ratio, with_floor.
    destruct (bounding_box g) as [[x y] z].
    cbn [volume_cm3 surface_area_cm2].
    rewrite !max_Qmax.
    assert (E : (Qmax (Qmax (volume_cm3 g) 0.1) 0.1
                 == Qmax (volume_cm3 g) 0.1)%Q) by qminmax.
    rewrite E. reflexivity. }
  assert (Ha : Reference.tier (aspect_ratio (with_floor g)) 10 5
               = Reference.tier (aspect_ratio g) 10 5).
  { unfold aspect_ratio, with_floor.
    destruct (bounding_box g) as [[x y] z]. cbn [bounding_box].
    unfold max3, min3. rewrite !max_Qmax, !min_Qmin.
    rewrite (tier_ext _ _ 10 5
               (Qdiv_comp _ _ (floor_max3 x y z 0.1) _ _
                  (Q.max_compat _ _ (floor_min3 x y z 0.1) _ _
                     (Qeq_refl 0.1)))).
    set (M := Qmax (Qmax x y) z). set (m := Qmin (Qmin x y) z).
    assert (Hd : (Qmax (Qmax m 0.1) 0.1 == Qmax m 0.1)%Q) by qminmax.
    rewrite (tier_ext _ _ 10 5 (Qdiv_comp _ _ (Qeq_refl _) _ _ Hd)).
    destruct (Qlt_le_dec M 0.1) as [Hlt | Hge].
    - (* every extent is below the floor: both ratios are at most 1 *)
      assert (Hm : (m <= M)%Q) by (unfold m, M; qminmax).
      assert (E1 : (Qmax M 0.1 == 0.1)%Q) by qminmax.
      assert (E2 : (Qmax m 0.1 == 0.1)%Q) by qminmax.
      rewrite (tier_ext _ _ 10 5 (Qdiv_comp _ _ E1 _ _ E2)).
      rewrite (tier_ext (M / Qmax m 0.1) _ 10 5
                 (Qdiv_comp _ _ (Qeq_refl M) _ _ E2)).
      transitivity 0.
      + apply tier_zero_iff; [vm_compute; discriminate |].
        vm_compute; discriminate.
      + symmetry. apply tier_zero_iff; [vm_compute; discriminate |].
        unfold Qdiv. change (/ 0.1)%Q with 10%Q. lra.
    - apply tier_ext. apply Qdiv_comp; [qminmax | reflexivity]. }
  rewrite (tier_ext _ _ 1000 500 Ht), (tier_ext _ _ 50 25 Hs), Ha.
  reflexivity.
Qed.

(** The score against the table, in the form the pipeline uses. *)
Lemma score_is_reference (mesh : Mesh) (g : Geometry) :
  compute_complexity_score mesh g
  = Reference.score g (analyze_mesh_quality mesh).
Proof.
  rewrite compute_uncapped, score_before_cap_sum.
  pose proof (score_before_cap_range mesh g) as R.
  rewrite score_before_cap_sum in R.
  unfold Reference.score, Reference.contributions, tri_density,
    aspect_ratio, sa_vol_ratio, max3, min3 in *.
  destruct (bounding_box g) as [[x y] z]. cbn in *.
  rewrite !max_Qmax, !min_Qmin in *. lia.
Qed.

End ScoreMore.

(** ** Properties of loading, geometry extraction, hashing and the pipeline *)

Module PipelineFacts.

Import Py PyFacts RoundFacts ModelAnalyzer ScoreFacts ScoreMore Exc Pipeline.

(** *** Reading a file in blocks *)

(** Induction on the length of what is left to read. *)
Lemma length_ind {A : Type} (P : list A -> Prop) :
  (forall l, (forall l', (length l' < length l)%nat -> P l') -> P l) ->
  forall l, P l.
Proof.
  intros step l. remember (length l) as n eqn:E. revert l E.
  induction n as [n IH] using lt_wf_ind. intros l ->.
  apply step. intros l' Hlt. apply (IH (length l') Hlt). reflexivity.
Qed.

Lemma read_blocks_nil : read_blocks [] = [].
Proof. reflexivity. Qed.

Lemma read_blocks_cons (c : Byte.byte) (f : list Byte.byte) :
  read_blocks (c :: f)
  = take block_size (c :: f) :: read_blocks (drop block_size (c :: f)).
Proof. rewrite (read_blocks_equation_1 (c :: f)). reflexivity. Qed.

Lemma read_blocks_concat (f : list Byte.byte) : concat (read_blocks f) = f.
Proof.
  induction f as [f IH] using length_ind.
  destruct f as [| c f]; [reflexivity |].
  rewrite read_blocks_cons. cbn [concat].
  rewrite IH; [apply take_drop |].
  rewrite length_drop. cbn. lia.
Qed.

(** The blocks fed to the hash are the file: put end to end they give
    back its bytes, in order; none is empty and none is longer than 4096
    bytes.  An empty file yields no block at all. *)
Theorem read_blocks_cover (f : list Byte.byte) :
  concat (read_blocks f) = f
  /\ Forall (fun block => block <> [] /\ (length block <= 4096)%nat)
       (read_blocks f)
  /\ (f = [] -> read_blocks f = []).
Proof.
  split; [apply read_blocks_concat |]. split.
  - induction f as [f IH] using length_ind.
    destruct f as [| c f]; [constructor |].
    rewrite read_blocks_cons. constructor.
    + split; [discriminate |]. rewrite length_take. unfold block_size. lia.
    + apply IH. rewrite length_drop. cbn. lia.
  - intros ->. reflexivity.
Qed.

(** With a hash whose [update] is a streaming one (feeding two blocks in
    turn is feeding their concatenation, and feeding nothing changes
    nothing, as hashlib documents), hashing block by block is hashing the
    whole content at once: the digest depends on the bytes of the file
    only. *)
Theorem compute_file_hash_one_shot `{Hashlib} `{FileSystem}
    (file_path : string) (content : list Byte.byte) :
  (forall h a b, update (update h a) b = update h (a ++ b)) ->
  (forall h, update h [] = h) ->
  open_rb file_path = Return content ->
  compute_file_hash file_path = Return (hexdigest (update sha256 content)).
Proof.
  intros Hstream Hnil Hopen. unfold compute_file_hash.
  rewrite Hopen. cbn. do 2 f_equal.
  assert (G : forall blocks h,
             fold_left update blocks h = update h (concat blocks)).
  { induction blocks as [| b blocks IH]; intros h; cbn.
    - symmetry. apply Hnil.
    - rewrite IH. apply Hstream. }
  rewrite G. f_equal. apply read_blocks_concat.
Qed.

Lemma compute_file_hash_one_shot_witness :
  @compute_file_hash Toy.toy_hashlib Toy.toy_fs "part.stl"
  = Return (@hexdigest Toy.toy_hashlib
              (@update Toy.toy_hashlib (@sha256 Toy.toy_hashlib)
                 [Byte.x73; Byte.x6f; Byte.x6c; Byte.x69; Byte.x64])).
Proof.
  apply (@compute_file_hash_one_shot Toy.toy_hashlib Toy.toy_fs).
  - intros h a b. cbn. symmetry. apply app_assoc.
  - intros h. cbn. apply app_nil_r.
  - reflexivity.
Defined.

(** Whatever goes wrong while loading, [load_model] raises a
    [ValueError] whose message starts with "Failed to load 3D model: ";
    nothing else escapes. *)
Theorem load_model_raises_ValueError `{TrimeshLib} (file_path : string)
    (e : exception) :
  load_model file_path = Throw e ->
  exists reason, e = ValueError ("Failed to load 3D model: " +:+ reason).
Proof.
  unfold load_model.
  match goal with
  | |- match ?a with _ => _ end = _ -> _ => destruct a as [m | e']
  end; intros [= <-]. exists (str e'). reflexivity.
Qed.

Lemma load_model_raises_ValueError_witness :
  exists reason,
    ValueError "Failed to load 3D model: file_type not supported"
    = ValueError ("Failed to load 3D model: " +:+ reason).
Proof.
  apply (@load_model_raises_ValueError Toy.toy_trimesh "part.obj").
  reflexivity.
Defined.

(** What [load_model] makes of the three shapes [trimesh.load] can
    return: a mesh or a one-element list is returned as it is, and an
    empty list is the error "File contains no meshes" behind the usual
    prefix. *)
Theorem load_model_shapes `{TrimeshLib} (file_path : string)
    (loaded : Loaded) :
  trimesh_load file_path = Return loaded ->
  match loaded with
  | LoadedMesh m => load_model file_path = Return m
  | LoadedList [] =>
      load_model file_path
      = Throw (ValueError "Failed to load 3D model: File contains no meshes")
  | LoadedList [m] => load_model file_path = Return m
  | LoadedList meshes =>
      forall m, concatenate meshes = Return m ->
                load_model file_path = Return m
  | LoadedScene dump =>
      forall m, dump = Return m -> load_model file_path = Return m
  end.
Proof.
  intros Hload. unfold load_model. rewrite Hload. cbn.
  destruct loaded as [m | [| m [| m' meshes]] | dump]; try reflexivity.
  - intros m0 ->. reflexivity.
  - intros m0 ->. reflexivity.
Qed.

Lemma load_model_shapes_witness :
  @load_model Toy.toy_trimesh "empty.3mf"
  = Throw (ValueError "Failed to load 3D model: File contains no meshes").
Proof.
  apply (@load_model_shapes Toy.toy_trimesh "empty.3mf" (LoadedList [])).
  reflexivity.
Defined.

Local Open Scope Q_scope.

Lemma round2_error (x : Q) : x - 0.005 <= round2 x /\ round2 x <= x + 0.005.
Proof.
  pose proof (round_half_even_error (x * 100)) as [Hl Hu].
  assert (E : round2 x == inject_Z (round_half_even (x * 100)) * (1 # 100)).
  { unfold round2. set (n := round_half_even (x * 100)).
    unfold Qeq, Qmult, inject_Z. simpl. lia. }
  rewrite E. split; lra.
Qed.

(** [extract_geometry] converts mm3 to cm3 and mm2 to cm2 and rounds to
    two decimals: each reported value is less than one hundredth away
    from the converted one, and a volume or an area that is not negative
    stays so.  The rounding itself moves a value by half a hundredth at
    most; the bound leaves the other half as a margin, and is stated for
    the sizes of [moderate], where a hundredth is far above the
    resolution of a float. *)
Theorem extract_geometry_accuracy (mesh : Trimesh) :
  moderate mesh ->
  let g := extract_geometry mesh in
  Qabs (volume_cm3 g - volume mesh / 1000) < 0.01
  /\ Qabs (surface_area_cm2 g - area mesh / 100) < 0.01
  /\ Qabs (fst (fst (bounding_box g)) - fst (fst (extents mesh))) < 0.01
  /\ Qabs (snd (fst (bounding_box g)) - snd (fst (extents mesh))) < 0.01
  /\ Qabs (snd (bounding_box g) - snd (extents mesh)) < 0.01
  /\ (0 <= volume mesh -> 0 <= volume_cm3 g)
  /\ (0 <= area mesh -> 0 <= surface_area_cm2 g).
Proof.
  intros _.
  unfold extract_geometry. destruct (extents mesh) as [[x y] z].
  cbn [volume_cm3 surface_area_cm2 bounding_box fst snd].
  pose proof (round2_error (volume mesh / 1000.0)) as [Hv1 Hv2].
  pose proof (round2_error (area mesh / 100.0)) as [Ha1 Ha2].
  pose proof (round2_error x) as [Hx1 Hx2].
  pose proof (round2_error y) as [Hy1 Hy2].
  pose proof (round2_error z) as [Hz1 Hz2].
  unfold Qdiv in *.
  change (/ 1000.0) with (10 # 10000) in *. change (/ 1000) with (1 # 1000).
  change (/ 100.0) with (10 # 1000) in *. change (/ 100) with (1 # 100).
  split; [apply Qabs_Qlt_condition; split; lra |].
  split; [apply Qabs_Qlt_condition; split; lra |].
  split; [apply Qabs_Qlt_condition; split; lra |].
  split; [apply Qabs_Qlt_condition; split; lra |].
  split; [apply Qabs_Qlt_condition; split; lra |].
  split; intros H0; apply round2_nonneg; lra.
Qed.

Lemma extract_geometry_accuracy_witness :
  let g := extract_geometry Toy.box in
  Qabs (volume_cm3 g - volume Toy.box / 1000) < 0.01
  /\ Qabs (surface_area_cm2 g - area Toy.box / 100) < 0.01
  /\ Qabs (fst (fst (bounding_box g)) - fst (fst (extents Toy.box))) < 0.01
  /\ Qabs (snd (fst (bounding_box g)) - snd (fst (extents Toy.box))) < 0.01
  /\ Qabs (snd (bounding_box g) - snd (extents Toy.box)) < 0.01
  /\ (0 <= volume Toy.box -> 0 <= volume_cm3 g)
  /\ (0 <= area Toy.box -> 0 <= surface_area_cm2 g).
Proof.
  apply (extract_geometry_accuracy Toy.box).
  unfold moderate. cbn. repeat split; qcompute.
Defined.

(** Closes an order goal between roundings of [x], [y] and [z] from the
    order of the numbers themselves, by monotonicity of the rounding. *)
Ltac order_by_rounding x y z :=
  first
    [ apply Qle_refl
    | apply round2_mono; lra
    | lra
    | exfalso;
      first [assert (round2 x <= round2 y) by (apply round2_mono; lra)
            | assert (round2 y <= round2 x) by (apply round2_mono; lra)
            | idtac];
      first [assert (round2 x <= round2 z) by (apply round2_mono; lra)
            | assert (round2 z <= round2 x) by (apply round2_mono; lra)
            | idtac];
      first [assert (round2 y <= round2 z) by (apply round2_mono; lra)
            | assert (round2 z <= round2 y) by (apply round2_mono; lra)
            | idtac];
      lra ].

(** Rounding keeps the order of the three extents: the largest rounded
    extent is the rounding of the largest extent, and likewise for the
    smallest, so the aspect ratio and the size thresholds see the rounded
    extremes. *)
Theorem extract_geometry_keeps_extremes (mesh : Trimesh) :
  max3 (bounding_box (extract_geometry mesh)) == round2 (max3 (extents mesh))
  /\ min3 (bounding_box (extract_geometry mesh))
     == round2 (min3 (extents mesh)).
Proof.
  unfold extract_geometry. destruct (extents mesh) as [[x y] z].
  cbn [bounding_box]. unfold max3, min3, max, min.
  split.
  - destruct (gt_reflect y x), (gt_reflect (round2 y) (round2 x));
      repeat match goal with
             | |- context [gt ?a ?b] => destruct (gt_reflect a b)
             end;
      apply Qle_antisym; order_by_rounding x y z.
  - destruct (lt_reflect y x), (lt_reflect (round2 y) (round2 x));
      repeat match goal with
             | |- context [lt ?a ?b] => destruct (lt_reflect a b)
             end;
      apply Qle_antisym; order_by_rounding x y z.
Qed.

Local Close Scope Q_scope.

(** The fields of a returned analysis, from the loaded mesh. *)
Lemma analyze_model_fields `{TrimeshLib} `{Hashlib} `{FileSystem}
    (file_path : string) (output_dir : option string) (a : Analysis) :
  analyze_model file_path output_dir = Return a ->
  exists mesh,
    load_model file_path = Return mesh
    /\ geometry a = extract_geometry mesh
    /\ quality a = analyze_mesh_quality (topology mesh)
    /\ complexity_score a
       = compute_complexity_score (topology mesh) (extract_geometry mesh).
Proof.
  unfold analyze_model.
  destruct (load_model file_path) as [mesh | e]; [| discriminate].
  cbn [mbind outcome_bind].
  match goal with
  | |- (?p ≫= _) = _ -> _ => destruct p as [preview | e]
  end; [| discriminate].
  cbn [mbind outcome_bind].
  destruct (compute_file_hash file_path) as [h | e]; [| discriminate].
  intros [= <-]. exists mesh. repeat split.
Qed.

(** What [analyze_model] reports hangs together: the geometry and the
    quality are those of the loaded mesh, and the score is the one the
    scoring table gives for the reported (rounded) geometry and the
    reported quality, between 0 and 10. *)
Theorem analyze_model_consistent `{TrimeshLib} `{Hashlib} `{FileSystem}
    (file_path : string) (output_dir : option string) (a : Analysis) :
  analyze_model file_path output_dir = Return a ->
  exists mesh,
    load_model file_path = Return mesh
    /\ geometry a = extract_geometry mesh
    /\ quality a = analyze_mesh_quality (topology mesh)
    /\ complexity_score a = Reference.score (geometry a) (quality a)
    /\ 0 <= complexity_score a <= 10.
Proof.
  intros Ha.
  apply analyze_model_fields in Ha as (mesh & Hload & Hg & Hq & Hs).
  exists mesh. split; [exact Hload |]. split; [exact Hg |].
  split; [exact Hq |]. rewrite Hs, Hg, Hq. split.
  - apply score_is_reference.
  - rewrite compute_uncapped. apply score_before_cap_range.
Qed.

Lemma analyze_model_consistent_witness :
  exists mesh,
    @load_model Toy.toy_trimesh "part.stl" = Return mesh
    /\ extract_geometry Toy.box = extract_geometry mesh
    /\ analyze_mesh_quality (topology Toy.box)
       = analyze_mesh_quality (topology mesh)
    /\ 0 = Reference.score (extract_geometry Toy.box)
             (analyze_mesh_quality (topology Toy.box))
    /\ 0 <= 0 <= 10.
Proof.
  apply (@analyze_model_consistent Toy.toy_trimesh Toy.toy_hashlib Toy.toy_fs
           "part.stl" (Some "output")
           {| file_hash := "5";
              geometry := extract_geometry Toy.box;
              quality := analyze_mesh_quality (topology Toy.box);
              complexity_score := 0;
              preview_image_path := None |}).
  vm_compute. reflexivity.
Defined.

(** The preview cannot fail the analysis, nor change it: with any other
    renderer behind the mesh library, one that always fails included,
    [analyze_model] raises the same exception or returns the same hash,
    geometry, quality and score.  The preview path of an answer is [None]
    or the output directory, a slash, the first 16 characters of the file
    hash and "_preview.png". *)
Theorem preview_never_fails_analysis `{lib : TrimeshLib} `{Hashlib}
    `{FileSystem} (render : Trimesh -> string -> Outcome unit)
    (file_path : string) (output_dir : option string) :
  match analyze_model file_path output_dir,
        analyze_model (trimesh := with_renderer lib render) file_path
          output_dir
  with
  | Return a, Return a' =>
      file_hash a' = file_hash a
      /\ geometry a' = geometry a
      /\ quality a' = quality a
      /\ complexity_score a' = complexity_score a
      /\ (preview_image_path a' = None
          \/ exists dir,
               output_dir = Some dir
               /\ preview_image_path a'
                  = Some (dir +:+ "/" +:+ substring 0 16 (file_hash a')
                            +:+ "_preview.png"))
  | Throw e, Throw e' => e' = e
  | _, _ => False
  end.
Proof.
  unfold analyze_model.
  change (load_model (trimesh := with_renderer lib render) file_path)
    with (load_model file_path).
  destruct (load_model file_path) as [mesh | e];
    cbn [mbind outcome_bind mret outcome_ret]; [| reflexivity].
  destruct output_dir as [dir |]; [destruct (truthy dir) |].
  - destruct (mkdir dir) as [[] | e];
      cbn [mbind outcome_bind mret outcome_ret]; [| reflexivity].
    destruct (compute_file_hash file_path) as [h | e];
      cbn [mbind outcome_bind mret outcome_ret]; [| reflexivity].
    cbn [file_hash geometry quality complexity_score preview_image_path].
    repeat (split; [reflexivity |]).
    unfold generate_preview_image. cbn [render_to with_renderer].
    destruct (render mesh _); [right | left; reflexivity].
    exists dir. split; reflexivity.
  - destruct (compute_file_hash file_path) as [h | e];
      cbn [mbind outcome_bind mret outcome_ret]; [| reflexivity].
    cbn. repeat (split; [reflexivity |]). left. reflexivity.
  - destruct (compute_file_hash file_path) as [h | e];
      cbn [mbind outcome_bind mret outcome_ret]; [| reflexivity].
    cbn. repeat (split; [reflexivity |]). left. reflexivity.
Qed.

Lemma preview_never_fails_analysis_witness :
  match @analyze_model Toy.toy_trimesh Toy.toy_hashlib Toy.toy_fs
          "part.stl" (Some "output"),
        @analyze_model
          (with_renderer Toy.toy_trimesh (fun _ _ => Return tt))
          Toy.toy_hashlib Toy.toy_fs "part.stl" (Some "output")
  with
  | Return a, Return a' =>
      file_hash a' = file_hash a
      /\ geometry a' = geometry a
      /\ quality a' = quality a
      /\ complexity_score a' = complexity_score a
      /\ (preview_image_path a' = None
          \/ exists dir,
               Some "output" = Some dir
               /\ preview_image_path a'
                  = Some (dir +:+ "/" +:+ substring 0 16 (file_hash a')
                            +:+ "_preview.png"))
  | Throw e, Throw e' => e' = e
  | _, _ => False
  end.
Proof.
  exact (@preview_never_fails_analysis Toy.toy_trimesh Toy.toy_hashlib
           Toy.toy_fs (fun _ _ => Return tt) "part.stl" (Some "output")).
Defined.

End PipelineFacts.

(** ** Properties of the user store *)

Module AuthFacts.

Import Exc Auth.

Section WithPasslib.

Context {passlib : Passlib}.

(** [create_user] either refuses a name that is taken, leaving the store
    as it was, or stores the new user under that name: the user it
    returns is the one [get_user] then finds, it is on the free tier with
    no card counted and has the id the counter stood at, and every other
    name resolves as before. *)
Theorem create_user_spec (self : UserStore) (s : salt) (now : Z)
    (username email password : string) :
  match get_user self username with
  | Some _ =>
      create_user self s now username email password
      = (self, Throw (ValueError "Username already exists"))
  | None =>
      exists self' user,
        create_user self s now username email password = (self', Return user)
        /\ get_user self' username = Some user
        /\ Auth.username user = username
        /\ id user = user_id_counter self
        /\ user_id_counter self' = user_id_counter self + 1
        /\ subscription_tier user = "free"
        /\ cards_generated_this_month user = 0
        /\ forall other, other <> username ->
                         get_user self' other = get_user self other
  end.
Proof.
  unfold get_user, create_user.
  destruct (users self !! username) as [u |] eqn:E; [reflexivity |].
  do 2 eexists. split; [reflexivity |]. cbn.
  split; [apply lookup_insert_eq |].
  repeat (split; [reflexivity |]).
  intros other Hne. apply lookup_insert_ne. congruence.
Qed.

Lemma reachable_well_formed (self : UserStore) :
  reachable self -> well_formed self.
Proof.
  induction 1 as [s now | self s now username email password _ [IHc IH]
                 | self username _ [IHc IH]].
  - split; [cbn; lia |]. intros name user Hget.
    unfold new, _create_demo_user in Hget. cbn in Hget.
    apply lookup_insert_Some in Hget as [[<- <-] | [_ Hget]].
    + cbn. repeat split; lia.
    + rewrite lookup_empty in Hget. discriminate Hget.
  - unfold create_user.
    destruct (users self !! username) as [u |] eqn:E; cbn.
    + split; assumption.
    + split; [cbn; lia |]. cbn. intros name user Hget.
      apply lookup_insert_Some in Hget as [[<- <-] | [_ Hget]].
      * cbn. repeat split; lia.
      * destruct (IH _ _ Hget) as (? & ? & ? & ?).
        repeat split; try assumption; lia.
  - unfold increment_card_count.
    destruct (users self !! username) as [u |] eqn:E; cbn.
    + split; [assumption |]. cbn. intros name user Hget.
      apply lookup_insert_Some in Hget as [[<- <-] | [_ Hget]].
      * destruct (IH _ _ E) as (? & ? & ? & ?).
        cbn. repeat split; try assumption; lia.
      * apply IH. exact Hget.
    + split; assumption.
Qed.

(** In a store the methods can produce no two users share an id, every id
    is below the counter, so the next user gets a fresh one, and each
    user is filed under its own name. *)
Theorem user_ids_unique (self : UserStore) (name1 name2 : string)
    (user1 user2 : User) :
  reachable self ->
  get_user self name1 = Some user1 ->
  get_user self name2 = Some user2 ->
  (id user1 = id user2 -> name1 = name2)
  /\ id user1 < user_id_counter self
  /\ Auth.username user1 = name1.
Proof.
  intros Hreach. revert name1 name2 user1 user2.
  unfold get_user.
  induction Hreach as [s now | self s now username email password Hr IH
                      | self username Hr IH];
    intros name1 name2 user1 user2 H1 H2.
  - unfold new, _create_demo_user in *. cbn in *.
    apply lookup_insert_Some in H1 as [[<- <-] | [_ H1]];
      [| rewrite lookup_empty in H1; discriminate H1].
    apply lookup_insert_Some in H2 as [[<- <-] | [_ H2]];
      [| rewrite lookup_empty in H2; discriminate H2].
    cbn. repeat split; lia.
  - pose proof (reachable_well_formed self Hr) as [Wc W].
    unfold create_user in *.
    destruct (users self !! username) as [u |] eqn:E; cbn in *.
    + apply (IH _ _ _ _ H1 H2).
    + apply lookup_insert_Some in H1 as [[<- <-] | [N1 H1]];
        apply lookup_insert_Some in H2 as [[<- <-] | [N2 H2]]; cbn.
      * repeat split; lia.
      * destruct (W _ _ H2) as (_ & _ & _ & ?). repeat split; lia.
      * destruct (W _ _ H1) as (? & _ & _ & ?). repeat split; try lia.
        assumption.
      * destruct (IH _ _ _ _ H1 H2) as (? & ? & ?).
        repeat split; try assumption; lia.
  - pose proof (reachable_well_formed self Hr) as [Wc W].
    unfold increment_card_count in *.
    destruct (users self !! username) as [u |] eqn:E; cbn in *.
    + apply lookup_insert_Some in H1 as [[<- <-] | [N1 H1]];
        apply lookup_insert_Some in H2 as [[<- <-] | [N2 H2]]; cbn.
      * destruct (W _ _ E) as (? & _ & _ & ?). repeat split; try lia.
        assumption.
      * destruct (IH _ _ _ _ E H2) as (? & ? & ?).
        repeat split; try assumption; lia.
      * destruct (IH _ _ _ _ H1 E) as (? & ? & ?).
        repeat split; try assumption; lia.
      * apply (IH _ _ _ _ H1 H2).
    + apply (IH _ _ _ _ H1 H2).
Qed.

(** [increment_card_count] does nothing for a name that is not in the
    store; otherwise it adds one to that user's count and touches nothing
    else: no other field, no other user, not the id counter. *)
Theorem increment_card_count_spec (self : UserStore) (username : string) :
  user_id_counter (increment_card_count self username)
  = user_id_counter self
  /\ (forall other, other <> username ->
       get_user (increment_card_count self username) other
       = get_user self other)
  /\ match get_user self username with
     | None => increment_card_count self username = self
     | Some user =>
         exists user',
           get_user (increment_card_count self username) username
           = Some user'
           /\ cards_generated_this_month user'
              = cards_generated_this_month user + 1
           /\ id user' = id user
           /\ Auth.username user' = Auth.username user
           /\ email user' = email user
           /\ hashed_password user' = hashed_password user
           /\ subscription_tier user' = subscription_tier user
           /\ created_at user' = created_at user
     end.
Proof.
  unfold get_user, increment_card_count.
  destruct (users self !! username) as [u |] eqn:E; cbn.
  - split; [reflexivity |]. split.
    + intros other Hne. apply lookup_insert_ne. congruence.
    + exists (count_one_more u). split; [apply lookup_insert_eq |].
      repeat split.
  - repeat split.
Qed.

(** The user found under [username] after [n] increments. *)
Lemma increments_count (self : UserStore) (username : string) (user : User)
    (n : nat) :
  get_user self username = Some user ->
  exists user',
    get_user (Nat.iter n (fun st => increment_card_count st username) self)
      username = Some user'
    /\ subscription_tier user' = subscription_tier user
    /\ cards_generated_this_month user'
       = cards_generated_this_month user + Z.of_nat n.
Proof.
  intros Hget. induction n as [| n (u & Hu & Ht & Hc)].
  - exists user. cbn. repeat split; [assumption | lia].
  - rewrite Nat.iter_succ. unfold get_user in *.
    set (st := Nat.iter n (fun st => increment_card_count st username) self)
      in *.
    unfold increment_card_count. rewrite Hu. cbn [users].
    rewrite lookup_insert_eq. eexists. split; [reflexivity |].
    cbn. split; [exact Ht | lia].
Qed.

(** A newly created user can generate exactly [free_limit] cards: after
    [n] counted cards the check still passes when [n] is below the limit
    (5 unless [FREE_TIER_CARDS_PER_MONTH] says otherwise) and fails from
    then on. *)
Theorem free_quota_is_exact (self : UserStore) (s : salt) (now : Z)
    (username email password : string) (env : option Z) (n : nat) :
  get_user self username = None ->
  let fresh := fst (create_user self s now username email password) in
  let after :=
    Nat.iter n (fun st => increment_card_count st username) fresh in
  fst (can_generate_card after env username)
  = bool_decide (Z.of_nat n < default 5 env).
Proof.
  intros Hnone fresh after.
  unfold get_user in Hnone.
  assert (Hget : exists user,
             get_user fresh username = Some user
             /\ subscription_tier user = "free"
             /\ cards_generated_this_month user = 0).
  { unfold fresh, create_user, get_user. rewrite Hnone. cbn [fst users].
    rewrite lookup_insert_eq. eexists. repeat split. }
  destruct Hget as (user & Hget & Htier & Hcount).
  destruct (increments_count fresh username user n Hget)
    as (u & Hu & Ht & Hn).
  unfold can_generate_card. fold after in Hu. rewrite Hu.
  rewrite Ht, Htier. cbn [String.eqb Ascii.eqb Bool.eqb].
  rewrite Hn, Hcount.
  destruct (Z.geb_spec (0 + Z.of_nat n) (default 5 env)); cbn [fst].
  - symmetry. apply bool_decide_eq_false. lia.
  - symmetry. apply bool_decide_eq_true. lia.
Qed.

(** When the password hash verifies the password it was made from, a user
    who has just been created can authenticate with the same password,
    and gets the stored user back. *)
Theorem authenticate_after_create (self : UserStore) (s : salt) (now : Z)
    (username email password : string) :
  (forall s' p, pwd_context_verify p (pwd_context_hash s' p) = true) ->
  get_user self username = None ->
  exists self' user,
    create_user self s now username email password = (self', Return user)
    /\ authenticate_user self' username password = Some user.
Proof.
  intros Hverify Hnone. unfold get_user in Hnone.
  unfold create_user. rewrite Hnone.
  do 2 eexists. split; [reflexivity |].
  unfold authenticate_user, get_user. cbn [users].
  rewrite lookup_insert_eq. cbn [hashed_password].
  unfold verify_password, get_password_hash. rewrite Hverify. reflexivity.
Qed.

(** No method of the store ever puts a user on the paid tier: in a store
    the methods can produce, [can_generate_card] never answers "Unlimited
    access", and it says yes exactly for a known user whose count is below
    the free limit. *)
Theorem free_tier_only (self : UserStore) (env : option Z)
    (username : string) :
  reachable self ->
  snd (can_generate_card self env username) <> "Unlimited access"
  /\ (fst (can_generate_card self env username) = true
      <-> exists user,
            get_user self username = Some user
            /\ cards_generated_this_month user < default 5 env).
Proof.
  intros Hreach. apply reachable_well_formed in Hreach as [_ W].
  unfold can_generate_card, get_user.
  destruct (users self !! username) as [u |] eqn:E.
  - destruct (W _ _ E) as (_ & Htier & _ & _). rewrite Htier.
    cbn [String.eqb Ascii.eqb Bool.eqb].
    destruct (Z.geb_spec (cards_generated_this_month u) (default 5 env));
      cbn [fst snd]; (split; [discriminate |]); split.
    + discriminate.
    + intros (u' & [= <-] & Hlt). lia.
    + intros _. exists u. split; [reflexivity | lia].
    + reflexivity.
  - cbn. split; [discriminate |]. split; [discriminate |].
    intros (u' & H' & _). discriminate H'.
Qed.

End WithPasslib.

Import Toy.

Lemma free_quota_is_exact_witness :
  fst (can_generate_card
         (Nat.iter 5 (fun st => increment_card_count st "ada") Toy.store1)
         None "ada")
  = bool_decide (Z.of_nat 5 < default 5 None).
Proof.
  apply (free_quota_is_exact (passlib := toy_passlib) Toy.store0 tt 1 "ada" "ada@example.org"
           "s3cret" None 5).
  reflexivity.
Defined.

Lemma authenticate_after_create_witness :
  exists self' user,
    create_user (passlib := toy_passlib) Toy.store0 tt 1 "ada"
      "ada@example.org" "s3cret"
    = (self', Return user)
    /\ authenticate_user self' "ada" "s3cret" = Some user.
Proof.
  apply (authenticate_after_create (passlib := toy_passlib) Toy.store0 tt 1 "ada" "ada@example.org"
           "s3cret").
  - intros s' p. cbn. apply String.eqb_refl.
  - reflexivity.
Defined.

Lemma free_tier_only_witness :
  snd (can_generate_card Toy.store1 None "ada") <> "Unlimited access"
  /\ (fst (can_generate_card Toy.store1 None "ada") = true
      <-> exists user,
            get_user Toy.store1 "ada" = Some user
            /\ cards_generated_this_month user < default 5 None).
Proof.
  apply (free_tier_only Toy.store1 None "ada").
  apply reachable_create_user. apply reachable_new.
Defined.

Lemma user_ids_unique_witness :
  exists user1 user2,
    get_user Toy.store1 "demo" = Some user1
    /\ get_user Toy.store1 "ada" = Some user2
    /\ (id user1 = id user2 -> "demo" = "ada")
    /\ id user1 < user_id_counter Toy.store1
    /\ Auth.username user1 = "demo".
Proof.
  do 2 eexists. split; [reflexivity |]. split; [reflexivity |].
  apply (user_ids_unique Toy.store1 "demo" "ada").
  - apply reachable_create_user. apply reachable_new.
  - reflexivity.
  - reflexivity.
Defined.

End AuthFacts.

(** ** Properties of the endpoints *)

Module MainFacts.

Import Py PyFacts ModelAnalyzer ScoreFacts ScoreMore Exc Pipeline
  PipelineFacts Auth AuthFacts Main.

Section WithServices.

Context {passlib : Passlib} {jose : Jose} {card_generator : CardGenerator}
        {builtins : Builtins} {config : Config}
        {trimesh : TrimeshLib} {hashlib : Hashlib} {fs : FileSystem}.

(** Registering a name that is taken answers 400 "Username already
    exists" and leaves the store alone; registering a new name stores the
    user and answers a bearer token made for that name. *)
Theorem register_spec (user_store : UserStore) (s : salt) (now : Z)
    (username email password : string) :
  match get_user user_store username with
  | Some _ =>
      register user_store s now username email password
      = (user_store, Throw (HTTPException 400 "Username already exists"))
  | None =>
      exists user_store' user,
        register user_store s now username email password
        = (user_store',
           Return {| access_token :=
                       create_access_token username
                         ACCESS_TOKEN_EXPIRE_MINUTES now;
                     token_type := "bearer" |})
        /\ get_user user_store' username = Some user
        /\ Auth.email user = email
        /\ subscription_tier user = "free"
  end.
Proof.
  unfold register, create_user, get_user.
  destruct (users user_store !! username) as [u |] eqn:E; [reflexivity |].
  do 2 eexists. split; [reflexivity |]. cbn.
  split; [apply lookup_insert_eq |]. split; reflexivity.
Qed.

(** When the password hash verifies the password it was made from, a
    user who has just registered can log in with the same credentials and
    gets a bearer token for the same name. *)
Theorem register_then_login (user_store : UserStore) (s : salt)
    (now later : Z) (username email password : string) :
  (forall s' p, pwd_context_verify p (pwd_context_hash s' p) = true) ->
  get_user user_store username = None ->
  exists user_store' token,
    register user_store s now username email password
    = (user_store', Return token)
    /\ login user_store' later username password
       = Return {| access_token :=
                     create_access_token username
                       ACCESS_TOKEN_EXPIRE_MINUTES later;
                   token_type := "bearer" |}.
Proof.
  intros Hverify Hnone. unfold get_user in Hnone.
  unfold register, create_user. rewrite Hnone.
  do 2 eexists. split; [reflexivity |].
  unfold login, authenticate_user, get_user. cbn [users].
  rewrite lookup_insert_eq. cbn [hashed_password].
  unfold verify_password, get_password_hash. rewrite Hverify. reflexivity.
Qed.

(** [generate_card] writes to the store only when it succeeds, and then
    it counts exactly one card for the caller; every failure is a 403 or
    a 500 and leaves the store as it was. *)
Theorem generate_card_store (user_store : UserStore) (data : card_data)
    (format : string) (current_user : User) :
  match generate_card user_store data format current_user with
  | (user_store', Return response) =>
      user_store'
      = increment_card_count user_store (Auth.username current_user)
      /\ success response = true
      /\ Main.format response = format
      /\ fst (can_generate_card user_store FREE_TIER_CARDS_PER_MONTH
                (Auth.username current_user)) = true
  | (user_store', Throw e) =>
      user_store' = user_store
      /\ exists detail,
           e = HTTPException 403 detail \/ e = HTTPException 500 detail
  end.
Proof.
  unfold generate_card.
  destruct (can_generate_card user_store FREE_TIER_CARDS_PER_MONTH
              (Auth.username current_user)) as [can reason].
  destruct can; cbn [negb fst].
  - destruct (String.eqb (str_lower format) "pdf"
              && negb (String.eqb (subscription_tier current_user) "paid")).
    + split; [reflexivity |]. eexists. left. reflexivity.
    + destruct (card_generator_generate_card data format true) as [path | e].
      * repeat split.
      * split; [reflexivity |]. eexists. right. reflexivity.
  - split; [reflexivity |]. eexists. left. reflexivity.
Qed.

(** The store after [generate_card]: untouched, or one more card for the
    caller, who then had passed the quota check. *)
Lemma generate_card_cases (user_store : UserStore) (data : card_data)
    (format : string) (current_user : User) :
  fst (generate_card user_store data format current_user) = user_store
  \/ (fst (generate_card user_store data format current_user)
      = increment_card_count user_store (Auth.username current_user)
      /\ fst (can_generate_card user_store FREE_TIER_CARDS_PER_MONTH
                (Auth.username current_user)) = true).
Proof.
  unfold generate_card.
  destruct (can_generate_card user_store FREE_TIER_CARDS_PER_MONTH
              (Auth.username current_user)) as [[|] reason]; cbn [negb fst];
    [| left; reflexivity].
  destruct (String.eqb (str_lower format) "pdf"
            && negb (String.eqb (subscription_tier current_user) "paid"));
    [left; reflexivity |].
  destruct (card_generator_generate_card data format true);
    [right; split; reflexivity | left; reflexivity].
Qed.

(** Whatever the endpoints do to the store, the methods of the store
    could have done. *)
Lemma served_reachable (user_store : UserStore) :
  served user_store -> reachable user_store.
Proof.
  induction 1 as [s now | store s now username email password _ IH
                 | store token data format _ IH].
  - apply reachable_new.
  - replace (fst (register store s now username email password))
      with (fst (create_user store s now username email password)).
    + apply reachable_create_user. exact IH.
    + unfold register.
      destruct (create_user store s now username email password)
        as [store' [user | [msg | code detail | msg]]]; reflexivity.
  - unfold generate_card_request.
    destruct (get_current_user store token) as [user | e]; [| exact IH].
    destruct (generate_card_cases store data format user) as [-> | [-> _]];
      [exact IH | apply reachable_increment; exact IH].
Qed.

Lemma get_current_user_found (user_store : UserStore) (token : string)
    (user : User) :
  get_current_user user_store token = Return user ->
  exists name, get_user user_store name = Some user.
Proof.
  unfold get_current_user.
  destruct (decode_access_token token) as [p |]; [| discriminate].
  destruct (payload_sub p) as [name |]; [| discriminate].
  destruct (get_user user_store name) as [u |] eqn:E; [| discriminate].
  intros [= <-]. exists name. exact E.
Qed.

(** Nothing the endpoints do puts a user on the paid tier, so a request
    for a PDF card is always refused and changes nothing: with a 401 when
    the token is not accepted, with a 403 (quota reached, or "PDF export
    is only available for paid tier users") otherwise. *)
Theorem pdf_is_never_served (user_store : UserStore) (token : string)
    (data : card_data) (format : string) :
  served user_store ->
  str_lower format = "pdf" ->
  exists code detail,
    generate_card_request user_store token data format
    = (user_store, Throw (HTTPException code detail))
    /\ (code = 401 \/ code = 403).
Proof.
  intros Hserved Hpdf.
  apply served_reachable, reachable_well_formed in Hserved as [_ W].
  unfold generate_card_request.
  destruct (get_current_user user_store token) as [user | e] eqn:Huser.
  - apply get_current_user_found in Huser as [name Hget].
    destruct (W _ _ Hget) as (_ & Htier & _ & _).
    unfold generate_card.
    destruct (can_generate_card user_store FREE_TIER_CARDS_PER_MONTH
                (Auth.username user)) as [[|] reason]; cbn [negb].
    + rewrite Hpdf, Htier. cbn.
      do 2 eexists. split; [reflexivity | right; reflexivity].
    + do 2 eexists. split; [reflexivity | right; reflexivity].
  - unfold get_current_user in Huser.
    destruct (decode_access_token token) as [p |];
      [destruct (payload_sub p) as [name |];
       [destruct (get_user user_store name) |] |];
      try discriminate Huser; injection Huser as <-;
      do 2 eexists; (split; [reflexivity | left; reflexivity]).
Qed.

(** Through the endpoints nobody's card count ever passes the free limit
    (5 unless [FREE_TIER_CARDS_PER_MONTH] says otherwise, and supposing
    that limit is not negative). *)
Theorem quota_is_never_exceeded (user_store : UserStore) (name : string)
    (user : User) :
  0 <= default 5 FREE_TIER_CARDS_PER_MONTH ->
  served user_store ->
  get_user user_store name = Some user ->
  cards_generated_this_month user <= default 5 FREE_TIER_CARDS_PER_MONTH.
Proof.
  intros Hlimit Hserved. revert name user. unfold get_user.
  induction Hserved as [s now | store s now username email password Hs IH
                       | store token data format Hs IH]; intros name user Hget.
  - unfold new, _create_demo_user in Hget. cbn in Hget.
    apply lookup_insert_Some in Hget as [[_ <-] | [_ Hget]]; [cbn; lia |].
    rewrite lookup_empty in Hget. discriminate Hget.
  - unfold register, create_user in Hget.
    destruct (users store !! username) as [u |] eqn:E; cbn in Hget.
    + apply (IH _ _ Hget).
    + apply lookup_insert_Some in Hget as [[_ <-] | [_ Hget]]; [cbn; lia |].
      apply (IH _ _ Hget).
  - apply served_reachable, reachable_well_formed in Hs as [_ W].
    unfold generate_card_request in Hget.
    destruct (get_current_user store token) as [caller | e] eqn:Hcaller;
      [| apply (IH _ _ Hget)].
    apply get_current_user_found in Hcaller as [key Hkey].
    unfold get_user in Hkey.
    destruct (W _ _ Hkey) as (Hname & Htier & _ & _).
    destruct (generate_card_cases store data format caller)
      as [Hsame | [Hinc Hcan]].
    + rewrite Hsame in Hget. apply (IH _ _ Hget).
    + rewrite Hinc in Hget.
      unfold can_generate_card, get_user in Hcan.
      rewrite Hname, Hkey, Htier in Hcan.
      cbn [String.eqb Ascii.eqb Bool.eqb] in Hcan.
      destruct (Z.geb_spec (cards_generated_this_month caller)
                  (default 5 FREE_TIER_CARDS_PER_MONTH)) as [Hge | Hlt];
        [discriminate Hcan |].
      unfold increment_card_count in Hget.
      rewrite Hname, Hkey in Hget. cbn in Hget.
      apply lookup_insert_Some in Hget as [[_ <-] | [_ Hget]];
        [cbn; lia | apply (IH _ _ Hget)].
Qed.

Local Open Scope Q_scope.


(** With a configured print speed that is not zero, the numbers of an
    [/analyze] answer can be recomputed from the answer itself: the score
    is the table's for the reported geometry and quality and lies in
    0..10, the infill is 25 or 20 by the size and score rule, and mass,
    cost and print time are those of PLA at that infill for the reported
    volume.  (With a zero print speed a print time of [inf] or [nan] is
    answered, which a rational cannot be.) *)
Theorem analyze_model_answer (file_path : string) (name : option string)
    (current_user : User) (r : AnalyzeResult) :
  ~ PricingEngine.fdm_print_speed pricing_engine == 0 ->
  Main.analyze_model file_path name current_user = Return r ->
  (0 <= Main.complexity_score r <= 10)%Z
  /\ (exists vertex_count,
        Main.complexity_score r
        = Reference.score
            {| ModelAnalyzer.volume_cm3 := Main.volume_cm3 r;
               ModelAnalyzer.bounding_box := Main.bounding_box r;
               ModelAnalyzer.surface_area_cm2 := Main.surface_area_cm2 r |}
            {| ModelAnalyzer.triangle_count := Main.triangle_count r;
               q_is_watertight := Main.is_watertight r;
               ModelAnalyzer.shell_count := Main.shell_count r;
               vertex_count := vertex_count |})
  /\ infill_recommended r
     = (if gt (max3 (Main.bounding_box r)) 200
           || (Main.complexity_score r >=? 7)%Z
        then 25%Z else 20%Z)
  /\ Main.mass_g r
     = PricingEngine.calculate_mass pricing_engine (Main.volume_cm3 r)
         "PLA" (infill_recommended r)
  /\ est_material_cost r
     = PricingEngine.calculate_material_cost pricing_engine (Main.mass_g r)
         "PLA"
  /\ Ok (Main.est_print_time_hours r)
     = PricingEngine.estimate_print_time pricing_engine (Main.volume_cm3 r)
         (Main.complexity_score r) (infill_recommended r).
Proof.
  intros _.
  unfold Main.analyze_model.
  destruct (path_exists file_path); cbn [negb]; [| discriminate].
  destruct (Pipeline.analyze_model file_path (Some OUTPUT_DIR))
    as [a | e] eqn:Ha; cbn [mbind outcome_bind]; [| discriminate].
  apply analyze_model_fields in Ha as (mesh & _ & Hg & Hq & Hs).
  assert (Hscore : Pipeline.complexity_score a
                   = Reference.score (geometry a) (quality a)).
  { rewrite Hs, Hg, Hq. apply score_is_reference. }
  assert (Hrange : (0 <= Pipeline.complexity_score a <= 10)%Z).
  { rewrite Hs, compute_uncapped. apply score_before_cap_range. }
  unfold price, PricingEngine.calculate_full_pricing.
  destruct (PricingEngine.estimate_print_time pricing_engine
              (ModelAnalyzer.volume_cm3 (geometry a))
              (Pipeline.complexity_score a)
              (PricingEngine.infill_percentage
                 (PricingEngine.get_recommended_settings
                    (Pipeline.complexity_score a)
                    (ModelAnalyzer.bounding_box (geometry a)))))
    as [t | []] eqn:Ht; cbn [Py.bind mbind outcome_bind]; [| discriminate].
  intros [= <-]. cbn.
  split; [exact Hrange |]. split.
  - exists (ModelAnalyzer.vertex_count (quality a)).
    rewrite Hscore. destruct (geometry a), (quality a). reflexivity.
  - split.
    + destruct (ModelAnalyzer.bounding_box (geometry a)) as [[x y] z].
      reflexivity.
    + split; [reflexivity |]. split; [reflexivity |].
      symmetry. exact Ht.
Qed.

End WithServices.

Import Toy.

Lemma register_then_login_witness :
  exists user_store' token,
    register (passlib := toy_passlib) store0 tt 1 "ada" "ada@example.org"
      "s3cret"
    = (user_store', Return token)
    /\ login user_store' 2 "ada" "s3cret"
       = Return {| access_token :=
                     create_access_token "ada" ACCESS_TOKEN_EXPIRE_MINUTES 2;
                   token_type := "bearer" |}.
Proof.
  apply (register_then_login (passlib := toy_passlib) store0 tt 1 2 "ada"
           "ada@example.org" "s3cret").
  - intros s' p. cbn. apply String.eqb_refl.
  - reflexivity.
Defined.

Lemma pdf_is_never_served_witness :
  exists code detail,
    generate_card_request (card_generator := toy_card_generator) store1
      "ada" tt "pdf"
    = (store1, Throw (HTTPException code detail))
    /\ (code = 401 \/ code = 403).
Proof.
  apply (pdf_is_never_served (passlib := toy_passlib)
           (card_generator := toy_card_generator) store1 "ada" tt "pdf").
  - apply (served_register (passlib := toy_passlib) store0 tt 1 "ada"
             "ada@example.org" "s3cret").
    apply (served_new (passlib := toy_passlib)).
  - reflexivity.
Defined.

Lemma quota_is_never_exceeded_witness :
  exists user,
    get_user store1 "ada" = Some user
    /\ (cards_generated_this_month user
        <= default 5 FREE_TIER_CARDS_PER_MONTH)%Z.
Proof.
  eexists. split; [reflexivity |].
  apply (quota_is_never_exceeded (passlib := toy_passlib)
           (card_generator := toy_card_generator) store1 "ada").
  - cbn. lia.
  - apply (served_register (passlib := toy_passlib) store0 tt 1 "ada"
             "ada@example.org" "s3cret").
    apply (served_new (passlib := toy_passlib)).
  - reflexivity.
Defined.


Lemma analyze_model_answer_witness :
  match
    Main.analyze_model "part.stl" None
      {| id := 1; username := "demo"; email := "demo@kitforge.com";
         hashed_password := "hash(demo123)"; subscription_tier := "free";
         cards_generated_this_month := 0; created_at := 0 |}
  with
  | Return r =>
      (0 <= Main.complexity_score r <= 10)%Z
      /\ infill_recommended r = 20%Z
      /\ Main.mass_g r
         = PricingEngine.calculate_mass pricing_engine (Main.volume_cm3 r)
             "PLA" 20
  | Throw _ => False
  end.
Proof.
  destruct (Main.analyze_model "part.stl" None _) as [r | e] eqn:E.
  - assert (Hspeed : ~ (PricingEngine.fdm_print_speed pricing_engine == 0)%Q)
      by (vm_compute; discriminate).
    destruct (analyze_model_answer _ _ _ _ Hspeed E)
      as (Hrange & _ & Hinfill & Hmass & _).
    assert (H20 : infill_recommended r = 20%Z).
    { rewrite Hinfill. vm_compute in E. injection E as <-. reflexivity. }
    rewrite H20 in Hmass. split; [exact Hrange |]. split; assumption.
  - vm_compute in E. discriminate E.
Defined.

End MainFacts.
